(** * Stock technical analyzer: indicator engine and trend classifier

    A shallow embedding of the numeric core of [stock_analyzer.py] and
    [app.py]: the indicator columns computed from the Close series, the
    classification of the last row, and the multi-symbol comparison guard.

    Numbers.  The source computes on float64 values held in pandas Series.
    A value is modelled as [float64]: not-a-number, the two infinities, or a
    finite value carried as an exact rational.  The special values follow
    IEEE 754 (NaN absorbs, comparisons with NaN are false, x/0 is an
    infinity or NaN); rounding of finite results is not represented, and
    neither is the sign of zero.  Finite results are stored reduced
    ([Qred]), so that equal values are equal terms. *)

From Stdlib Require Import QArith Qreduction Lia.
From stdpp Require Import gmap strings list fin_maps.

Local Open Scope Q_scope.

(** ** float64 values *)

Inductive float64 : Type :=
  | NaN
  | PInf
  | NInf
  | Fin (q : Q).

Definition fin (q : Q) : float64 := Fin (Qred q).

Definition of_nat (n : nat) : float64 := fin (inject_Z (Z.of_nat n)).

Definition is_nan (x : float64) : bool :=
  match x with NaN => true | _ => false end.

Definition Qpos_b (q : Q) : bool := (0 <? Qnum q)%Z.
Definition Qneg_b (q : Q) : bool := (Qnum q <? 0)%Z.
Definition Qzero_b (q : Q) : bool := (Qnum q =? 0)%Z.
Definition Qlt_b (a b : Q) : bool := negb (Qle_bool b a).

Definition fneg (x : float64) : float64 :=
  match x with
  | NaN => NaN
  | PInf => NInf
  | NInf => PInf
  | Fin q => fin (- q)
  end.

Definition fadd (x y : float64) : float64 :=
  match x, y with
  | NaN, _ | _, NaN => NaN
  | PInf, NInf | NInf, PInf => NaN
  | PInf, _ | _, PInf => PInf
  | NInf, _ | _, NInf => NInf
  | Fin a, Fin b => fin (a + b)
  end.

Definition fsub (x y : float64) : float64 :=
  match x, y with
  | NaN, _ | _, NaN => NaN
  | PInf, PInf | NInf, NInf => NaN
  | PInf, _ | _, NInf => PInf
  | NInf, _ | _, PInf => NInf
  | Fin a, Fin b => fin (a - b)
  end.

(** The infinity of the given sign: [true] is negative. *)
Definition inf_of (negative : bool) : float64 :=
  if negative then NInf else PInf.

Definition fmul (x y : float64) : float64 :=
  match x, y with
  | NaN, _ | _, NaN => NaN
  | Fin a, Fin b => fin (a * b)
  | Fin a, PInf | PInf, Fin a =>
      if Qzero_b a then NaN else inf_of (Qneg_b a)
  | Fin a, NInf | NInf, Fin a =>
      if Qzero_b a then NaN else inf_of (Qpos_b a)
  | PInf, PInf | NInf, NInf => PInf
  | PInf, NInf | NInf, PInf => NInf
  end.

(** Division never raises on float64 (numpy scalars and Series): a zero
    divisor gives NaN for 0/0 and an infinity otherwise. *)
Definition fdiv (x y : float64) : float64 :=
  match x, y with
  | NaN, _ | _, NaN => NaN
  | Fin a, Fin b =>
      if Qzero_b b
      then (if Qzero_b a then NaN else inf_of (Qneg_b a))
      else fin (a / b)
  | Fin _, PInf | Fin _, NInf => Fin 0
  | PInf, Fin b => inf_of (Qneg_b b)
  | NInf, Fin b => inf_of (negb (Qneg_b b))
  | PInf, PInf | PInf, NInf | NInf, PInf | NInf, NInf => NaN
  end.

(** [x > y] and [x < y]; both are false as soon as one side is NaN. *)
Definition flt (x y : float64) : bool :=
  match x, y with
  | NaN, _ | _, NaN => false
  | _, NInf => false
  | NInf, _ => true
  | PInf, _ => false
  | Fin _, PInf => true
  | Fin a, Fin b => Qlt_b a b
  end.

Definition fgt (x y : float64) : bool := flt y x.

Local Close Scope Q_scope.

(** ** pandas Series *)

Abbreviation Series := (list float64).

(** [s.diff()] *)
Definition diff (s : Series) : Series :=
  imap (fun i x =>
          match i with
          | O => NaN
          | S j => match s !! j with Some y => fsub x y | None => NaN end
          end) s.

(** [s > c] and [s < c] against a scalar. *)
Definition series_gt (s : Series) (c : float64) : list bool :=
  (fun x => fgt x c) <$> s.
Definition series_lt (s : Series) (c : float64) : list bool :=
  (fun x => flt x c) <$> s.

(** [s.where(cond, other)]: keeps the value where [cond] holds. *)
Definition where_ (s : Series) (cond : list bool) (other : float64) : Series :=
  zip_with (fun x (b : bool) => if b then x else other) s cond.

(** unary minus, and arithmetic of a Series with a scalar or a Series *)
Definition series_neg (s : Series) : Series := fneg <$> s.
Definition series_div (a b : Series) : Series := zip_with fdiv a b.
Definition series_sub (a b : Series) : Series := zip_with fsub a b.
Definition series_add (a b : Series) : Series := zip_with fadd a b.
Definition scalar_add (c : float64) (s : Series) : Series := fadd c <$> s.
Definition scalar_sub (c : float64) (s : Series) : Series := fsub c <$> s.
Definition scalar_div (c : float64) (s : Series) : Series := fdiv c <$> s.
Definition series_mul_scalar (s : Series) (c : float64) : Series :=
  (fun x => fmul x c) <$> s.

Definition fsum (l : Series) : float64 := foldr fadd (Fin 0) l.

(** The trailing window of [w] rows that ends at row [i]. *)
Definition window (w i : nat) (s : Series) : Series :=
  take w (drop (S i - w) s).

(** [s.rolling(window=w).mean()]: undefined (NaN) on the first [w-1] rows
    and on any window that holds a NaN (the sum of such a window is NaN).
    Each window is summed afresh, which is what the rolling mean means;
    the running sum pandas keeps differs from it by rounding only. *)
Definition rolling_mean (w : nat) (s : Series) : Series :=
  imap (fun i _ =>
          if decide (S i < w) then NaN
          else fdiv (fsum (window w i s)) (of_nat w)) s.

(** [s.ewm(span=n, adjust=False).mean()]:
    y0 = x0, yt = (1 - a) * y(t-1) + a * xt with a = 2 / (n + 1).
    A NaN in the input stays in the output from there on; pandas carries
    the last average over such a row instead. *)
Definition ewm_alpha (span : nat) : float64 :=
  fdiv (Fin 2) (of_nat (span + 1)).

Fixpoint ewm_from (a prev : float64) (s : Series) : Series :=
  match s with
  | [] => []
  | x :: s' =>
      let y := fadd (fmul (fsub (Fin 1) a) prev) (fmul a x) in
      y :: ewm_from a y s'
  end.

Definition ewm_mean (span : nat) (s : Series) : Series :=
  match s with
  | [] => []
  | x :: s' => x :: ewm_from (ewm_alpha span) x s'
  end.

(** [s.pct_change()] *)
Definition pct_change (s : Series) : Series :=
  imap (fun i x =>
          match i with
          | O => NaN
          | S j => match s !! j with
                   | Some y => fsub (fdiv x y) (Fin 1)
                   | None => NaN
                   end
          end) s.

(** ** The four RSI computations *)

(** [StockAnalyzer.calculate_technical_indicators], block 3: the series
    [gain] and [loss], which hold the trailing-14 average gain and average
    loss of each row, and the RSI made of them. *)
Definition rsi_gain (close : Series) : Series :=
  let delta := diff close in
  rolling_mean 14 (where_ delta (series_gt delta (Fin 0)) (Fin 0)).
Definition rsi_loss (close : Series) : Series :=
  let delta := diff close in
  rolling_mean 14 (series_neg (where_ delta (series_lt delta (Fin 0)) (Fin 0))).

Definition rsi_analyzer (close : Series) : Series :=
  let delta := diff close in
  let gain := rolling_mean 14 (where_ delta (series_gt delta (Fin 0)) (Fin 0)) in
  let loss :=
    rolling_mean 14 (series_neg (where_ delta (series_lt delta (Fin 0)) (Fin 0))) in
  let rs := series_div gain loss in
  scalar_sub (Fin 100) (scalar_div (Fin 100) (scalar_add (Fin 1) rs)).

(** [compare_stocks], RSI panel of the comparison chart. *)
Definition rsi_compare_chart (close : Series) : Series :=
  let delta := diff close in
  let gain := rolling_mean 14 (where_ delta (series_gt delta (Fin 0)) (Fin 0)) in
  let loss :=
    rolling_mean 14 (series_neg (where_ delta (series_lt delta (Fin 0)) (Fin 0))) in
  let rs := series_div gain loss in
  let rsi := scalar_sub (Fin 100) (scalar_div (Fin 100) (scalar_add (Fin 1) rs)) in
  rsi.

(** [calculate_indicators] of app.py, RSI block. *)
Definition rsi_app (close : Series) : Series :=
  let delta := diff close in
  let gain := rolling_mean 14 (where_ delta (series_gt delta (Fin 0)) (Fin 0)) in
  let loss :=
    rolling_mean 14 (series_neg (where_ delta (series_lt delta (Fin 0)) (Fin 0))) in
  let rs := series_div gain loss in
  scalar_sub (Fin 100) (scalar_div (Fin 100) (scalar_add (Fin 1) rs)).

(** [create_comparison_chart] of app.py, RSI panel: the ratio is written
    in place, without the intermediate [rs]. *)
Definition rsi_app_chart (close : Series) : Series :=
  let delta := diff close in
  let gain := rolling_mean 14 (where_ delta (series_gt delta (Fin 0)) (Fin 0)) in
  let loss :=
    rolling_mean 14 (series_neg (where_ delta (series_lt delta (Fin 0)) (Fin 0))) in
  let rsi :=
    scalar_sub (Fin 100)
      (scalar_div (Fin 100) (scalar_add (Fin 1) (series_div gain loss))) in
  rsi.

(** ** Objects: data frames on a heap, exceptions, console output *)

(** A pandas DataFrame: the time index and the named columns. *)
Record DataFrame : Type := mkDF {
  index : list Z;
  columns : gmap string Series;
}.

(** [df.empty]: one of the two axes has length zero. *)
Definition df_empty (df : DataFrame) : bool :=
  bool_decide (index df = []) || bool_decide (columns df = ∅).

Definition loc : Type := nat.

Inductive exn : Type :=
  | KeyError (key : string)
  | IndexError
  | TypeError
  | FetchError
  | StopException.

(** What the comparison mode shows to its caller. *)
Inductive Event : Type :=
  | FetchedRows (ticker : string) (rows : nat)
  | NoData (ticker : string)
  | FetchFailed (ticker : string)
  | TooFewTickers
  | NotEnoughSymbols
  | ComparisonChart (panels : list (string * (Series * Series * Series * Series)))
  | SummaryRow (ticker : string) (latest ret rsi : float64)
  | SummaryCard (ticker : string) (latest ret : float64).

Record World : Type := mkWorld {
  heap : gmap loc DataFrame;
  out : list Event;
}.

Inductive outcome (A : Type) : Type :=
  | Ok (a : A) (w : World)
  | Raise (e : exn) (w : World).
Arguments Ok {A} a w.
Arguments Raise {A} e w.

Definition M (A : Type) : Type := World -> outcome A.

Definition ret {A} (a : A) : M A := fun w => Ok a w.
Definition bind {A B} (m : M A) (k : A -> M B) : M B :=
  fun w => match m w with
           | Ok a w' => k a w'
           | Raise e w' => Raise e w'
           end.
Definition raise {A} (e : exn) : M A := fun w => Raise e w.

#[global] Instance M_ret : MRet M := @ret.
#[global] Instance M_bind : MBind M := fun A B k m => bind m k.

(** [try: m except Exception: h] *)
Definition try_except {A} (m : M A) (h : exn -> M A) : M A :=
  fun w => match m w with
           | Ok a w' => Ok a w'
           | Raise e w' => h e w'
           end.

Definition emit (e : Event) : M unit :=
  fun w => Ok tt (mkWorld (heap w) (out w ++ [e])).

(** A new object, at a location not in use. *)
Definition alloc (df : DataFrame) : M loc :=
  fun w => let l := fresh (dom (heap w)) in
           Ok l (mkWorld (<[l := df]> (heap w)) (out w)).

(** Every location the program holds came from [alloc]; reading one that
    is not on the heap is the error of subscripting a non-object. *)
Definition deref (l : loc) : M DataFrame :=
  fun w => match heap w !! l with
           | Some df => Ok df w
           | None => Raise TypeError w
           end.

(** [data.copy()] *)
Definition copy (l : loc) : M loc := df ← deref l; alloc df.

(** [df[c]] *)
Definition getitem (l : loc) (c : string) : M Series :=
  df ← deref l;
  match columns df !! c with
  | Some s => ret s
  | None => raise (KeyError c)
  end.

Definition store (l : loc) (df : DataFrame) : M unit :=
  fun w => Ok tt (mkWorld (<[l := df]> (heap w)) (out w)).

(** [df[c] = s]: the object at [l] is changed in place. *)
Definition setitem (l : loc) (c : string) (s : Series) : M unit :=
  df ← deref l;
  store l (mkDF (index df) (<[c := s]> (columns df))).

(** [s.iloc[-1]], [s.iloc[-2]] and [s.iloc[0]]: out of bounds raises. *)
Definition iloc_from_end (s : Series) (k : nat) : M float64 :=
  match reverse s !! k with
  | Some x => ret x
  | None => raise IndexError
  end.
Definition iloc_last (s : Series) : M float64 := iloc_from_end s 0.
Definition iloc_first (s : Series) : M float64 :=
  match s !! 0 with
  | Some x => ret x
  | None => raise IndexError
  end.



(** ** Aggregates that skip NaN: [s.max()], [s.min()], [s.mean()] *)

Definition dropna (s : Series) : Series :=
  filter (fun x => is_nan x = false) s.
Definition fmax (x y : float64) : float64 := if flt x y then y else x.
Definition fmin (x y : float64) : float64 := if flt y x then y else x.
Definition series_max (s : Series) : float64 :=
  match dropna s with [] => NaN | x :: l => foldl fmax x l end.
Definition series_min (s : Series) : float64 :=
  match dropna s with [] => NaN | x :: l => foldl fmin x l end.
Definition series_mean (s : Series) : float64 :=
  match dropna s with
  | [] => NaN
  | l => fdiv (fsum l) (of_nat (length l))
  end.

(** ** Classification labels

    The two programs print different texts for the same classes; the
    classes are:
    - trend: "Strong Bullish", "Moderately Bullish", "Strong Bearish",
      "Moderately Bearish", "Sideways", and the "data shortage" badge that
      only app.py has;
    - RSI: "Overbought", "Oversold", "Neutral";
    - MACD: the buy signal "Bullish" and the sell signal "Bearish". *)

Inductive Trend : Type :=
  | StrongBullish | Bullish | StrongBearish | Bearish | Sideways
  | InsufficientData.

Inductive RsiSignal : Type := Overbought | Oversold | Neutral.

Inductive MacdSignal : Type := MacdBullish | MacdBearish.

#[global] Instance Trend_eq_dec : EqDecision Trend.
Proof. solve_decision. Defined.

(** [StockAnalyzer.analyze_trend]: the three if-chains. *)
Definition trend_of (latest_price sma_10 sma_30 : float64) : Trend :=
  if fgt latest_price sma_10 && fgt sma_10 sma_30 then StrongBullish
  else if fgt latest_price sma_10 then Bullish
  else if flt latest_price sma_10 && flt sma_10 sma_30 then StrongBearish
  else if flt latest_price sma_10 then Bearish
  else Sideways.

Definition rsi_signal_of (rsi : float64) : RsiSignal :=
  if fgt rsi (Fin 70) then Overbought
  else if flt rsi (Fin 30) then Oversold
  else Neutral.

Definition macd_signal_of (macd signal : float64) : MacdSignal :=
  if fgt macd signal then MacdBullish else MacdBearish.

(** app.py, single-symbol mode: the trend badge and the metric labels. *)
Definition app_trend (latest sma10 sma30 : float64) : Trend :=
  if negb (is_nan sma10) && negb (is_nan sma30) then
    if fgt latest sma10 && fgt sma10 sma30 then StrongBullish
    else if fgt latest sma10 then Bullish
    else if flt latest sma10 && flt sma10 sma30 then StrongBearish
    else if flt latest sma10 then Bearish
    else Sideways
  else InsufficientData.

(** [x if not pd.isna(x) else 0] *)
Definition nan_to_zero (x : float64) : float64 :=
  if negb (is_nan x) then x else Fin 0.

Definition app_rsi_label (rsi : float64) : RsiSignal :=
  if fgt rsi (Fin 70) then Overbought
  else (if flt rsi (Fin 30) then Oversold else Neutral).

Definition app_macd_label (macd_val signal_val : float64) : MacdSignal :=
  if fgt macd_val signal_val then MacdBullish else MacdBearish.

Record TrendAssessment : Type := mkAssessment {
  trend : Trend;
  latest_price : float64;
  sma_10 : float64;
  sma_30 : float64;
  rsi : float64;
  rsi_signal : RsiSignal;
  macd : float64;
  signal : float64;
  macd_signal : MacdSignal;
  period_return : float64;
  volatility : float64;
  high : float64;
  low : float64;
  avg_volume : float64;
}.

(** What the single-symbol page of app.py displays. *)
Record AppSummary : Type := mkSummary {
  app_latest : float64;
  app_change : float64;
  app_change_pct : float64;
  app_period_return : float64;
  app_rsi : float64;
  app_rsi_text : RsiSignal;
  app_macd_val : float64;
  app_signal_val : float64;
  app_macd_text : MacdSignal;
  app_trend_text : Trend;
  app_avg_volume : float64;
  app_table : loc;
}.

Record StockAnalyzer : Type := mkAnalyzer {
  ticker : string;
  period : string;
  data : option loc;
}.

(** [self.data[...]]: before any fetch [self.data] is [None]. *)
Definition self_data (self : StockAnalyzer) : M loc :=
  match data self with
  | Some l => ret l
  | None => raise TypeError
  end.

Section Engine.

(** The square root of float64, which the rationals do not have. *)
Variable fsqrt : float64 -> float64.

(** [yf.Ticker(t).history(period=p)]: the table the data source answers
    with, or [None] when the call raises. *)
Variable yf_history : string -> string -> option DataFrame.

Definition history (t p : string) : M loc :=
  match yf_history t p with
  | Some df => alloc df
  | None => raise FetchError
  end.

(** Sample standard deviation (ddof = 1) of one full window; undefined
    when the window holds a NaN. *)
Definition sample_std (l : Series) : float64 :=
  if existsb is_nan l then NaN
  else
    let m := fdiv (fsum l) (of_nat (length l)) in
    let sq := (fun x => fmul (fsub x m) (fsub x m)) <$> l in
    fsqrt (fdiv (fsum sq) (of_nat (length l - 1))).

(** [s.rolling(window=w).std()] *)
Definition rolling_std (w : nat) (s : Series) : Series :=
  imap (fun i _ =>
          if decide (S i < w) then NaN
          else sample_std (window w i s)) s.

(** *** stock_analyzer.py *)

Definition fetch_data (self : StockAnalyzer) : M (bool * StockAnalyzer) :=
  try_except
    (l ← history (ticker self) (period self);
     let self' := mkAnalyzer (ticker self) (period self) (Some l) in
     df ← deref l;
     if df_empty df then ret (false, self') else ret (true, self'))
    (fun _ => ret (false, self)).

(** The numbered blocks of [calculate_technical_indicators].  Blocks 1,
    2, 4 and 5 read the same in [calculate_indicators] of app.py, which
    names the frame [df]. *)

(** 1. moving averages *)
Definition moving_averages (d : loc) : M unit :=
  close ← getitem d "Close"; setitem d "SMA_10" (rolling_mean 10 close);;
  close ← getitem d "Close"; setitem d "SMA_30" (rolling_mean 30 close);;
  close ← getitem d "Close"; setitem d "SMA_60" (rolling_mean 60 close).

(** 2. volatility *)
Definition volatility_block (d : loc) : M unit :=
  close ← getitem d "Close"; setitem d "Volatility" (rolling_std 20 close).

(** 3. RSI, with the computation of the file at hand *)
Definition rsi_block (rsi_of : Series -> Series) (d : loc) : M unit :=
  close ← getitem d "Close"; setitem d "RSI" (rsi_of close).

(** 4. MACD *)
Definition macd_block (d : loc) : M unit :=
  close ← getitem d "Close"; let exp1 := ewm_mean 12 close in
  close ← getitem d "Close"; let exp2 := ewm_mean 26 close in
  setitem d "MACD" (series_sub exp1 exp2);;
  m ← getitem d "MACD"; setitem d "Signal" (ewm_mean 9 m);;
  m ← getitem d "MACD"; sg ← getitem d "Signal";
  setitem d "Histogram" (series_sub m sg).

(** 5. Bollinger bands *)
Definition bollinger_block (d : loc) : M unit :=
  close ← getitem d "Close"; setitem d "BB_Middle" (rolling_mean 20 close);;
  close ← getitem d "Close"; let bb_std_dev := rolling_std 20 close in
  mid ← getitem d "BB_Middle";
  setitem d "BB_Upper" (series_add mid (series_mul_scalar bb_std_dev (Fin 2)));;
  mid ← getitem d "BB_Middle";
  setitem d "BB_Lower" (series_sub mid (series_mul_scalar bb_std_dev (Fin 2))).

(** 6. daily return *)
Definition daily_return_block (d : loc) : M unit :=
  close ← getitem d "Close";
  setitem d "Daily_Return" (series_mul_scalar (pct_change close) (Fin 100)).

(** The method works on [self.data] itself and returns nothing. *)
Definition calculate_technical_indicators (self : StockAnalyzer) : M unit :=
  d ← self_data self;
  moving_averages d;;
  volatility_block d;;
  rsi_block rsi_analyzer d;;
  macd_block d;;
  bollinger_block d;;
  daily_return_block d.

Definition analyze_trend (self : StockAnalyzer) : M TrendAssessment :=
  d ← self_data self;
  c ← getitem d "Close"; latest_price ← iloc_last c;
  c ← getitem d "SMA_10"; sma_10 ← iloc_last c;
  c ← getitem d "SMA_30"; sma_30 ← iloc_last c;
  c ← getitem d "RSI"; rsi ← iloc_last c;
  c ← getitem d "MACD"; macd ← iloc_last c;
  c ← getitem d "Signal"; signal ← iloc_last c;
  let trend := trend_of latest_price sma_10 sma_30 in
  let rsi_signal := rsi_signal_of rsi in
  let macd_signal := macd_signal_of macd signal in
  c ← getitem d "Close"; first ← iloc_first c;
  let period_return := fmul (fsub (fdiv latest_price first) (Fin 1)) (Fin 100) in
  c ← getitem d "Volatility"; vol ← iloc_last c;
  hi ← getitem d "High";
  lo ← getitem d "Low";
  v ← getitem d "Volume";
  ret (mkAssessment trend latest_price sma_10 sma_30 rsi rsi_signal
         macd signal macd_signal period_return vol
         (series_max hi) (series_min lo) (series_mean v)).

(** [StockAnalyzer.run]: the chart and the report each start by asking
    for the assessment; their drawing and writing is left out. *)
Definition run (self : StockAnalyzer) : M bool :=
  r ← fetch_data self;
  let '(fetched, self) := r in
  if negb fetched then ret false
  else
    calculate_technical_indicators self;;
    analyze_trend self;;
    analyze_trend self;;
    ret true.



(** The RSI of the summary table of [compare_stocks]. *)
Definition rsi_compare_summary (close : Series) : Series :=
  let delta := diff close in
  let gain := rolling_mean 14 (where_ delta (series_gt delta (Fin 0)) (Fin 0)) in
  let loss :=
    rolling_mean 14 (series_neg (where_ delta (series_lt delta (Fin 0)) (Fin 0))) in
  let rs := series_div gain loss in
  scalar_sub (Fin 100) (scalar_div (Fin 100) (scalar_add (Fin 1) rs)).


(** *** app.py *)

Definition fetch_stock_data (t p : string) : M loc := history t p.

(** The function works on a copy of its argument and returns the copy. *)
Definition calculate_indicators (data : loc) : M loc :=
  df ← copy data;
  moving_averages df;;
  volatility_block df;;
  rsi_block rsi_app df;;
  macd_block df;;
  bollinger_block df;;
  ret df.

(** [len(data)] *)
Definition len (data : loc) : M nat := df ← deref data; ret (length (index df)).

(** Single-symbol mode, up to the metric cards and the trend badge.
    [st.stop()] ends the script run: it is the exception
    [StopException]. *)
Definition single_symbol_mode (ticker selected_period : string) : M AppSummary :=
  data ← try_except (fetch_stock_data ticker selected_period)
           (fun _ => emit (FetchFailed ticker);; raise StopException);
  df ← deref data;
  if df_empty df then emit (NoData ticker);; raise StopException
  else
    data ← calculate_indicators data;
    c ← getitem data "Close"; latest ← iloc_last c;
    n ← len data;
    prev ← (if decide (1 < n)
             then c ← getitem data "Close"; iloc_from_end c 1
             else ret latest);
    let change := fsub latest prev in
    let change_pct := fmul (fdiv change prev) (Fin 100) in
    c ← getitem data "Close"; first ← iloc_first c;
    let period_return := fmul (fsub (fdiv latest first) (Fin 1)) (Fin 100) in
    c ← getitem data "RSI"; r ← iloc_last c;
    let rsi := nan_to_zero r in
    c ← getitem data "MACD"; m ← iloc_last c;
    let macd_val := nan_to_zero m in
    c ← getitem data "Signal"; sg ← iloc_last c;
    let signal_val := nan_to_zero sg in
    c ← getitem data "SMA_10"; sma10 ← iloc_last c;
    c ← getitem data "SMA_30"; sma30 ← iloc_last c;
    let trend_text := app_trend latest sma10 sma30 in
    v ← getitem data "Volume";
    ret (mkSummary latest change change_pct period_return
           rsi (app_rsi_label rsi)
           macd_val signal_val (app_macd_label macd_val signal_val)
           trend_text (series_mean v) data).





End Engine.

(** ** The tables the two computations leave behind *)

Section Tables.

Variable fsqrt : float64 -> float64.

Definition sma_columns (close : Series) (cols : gmap string Series)
  : gmap string Series :=
  <["SMA_60" := rolling_mean 60 close]>
    (<["SMA_30" := rolling_mean 30 close]>
       (<["SMA_10" := rolling_mean 10 close]> cols)).

Definition volatility_columns (close : Series) (cols : gmap string Series)
  : gmap string Series :=
  <["Volatility" := rolling_std fsqrt 20 close]> cols.

Definition rsi_columns (rsi_of : Series -> Series) (close : Series)
    (cols : gmap string Series) : gmap string Series :=
  <["RSI" := rsi_of close]> cols.

Definition macd_series (close : Series) : Series :=
  series_sub (ewm_mean 12 close) (ewm_mean 26 close).
Definition signal_series (close : Series) : Series :=
  ewm_mean 9 (macd_series close).
Definition histogram_series (close : Series) : Series :=
  series_sub (macd_series close) (signal_series close).

Definition macd_columns (close : Series) (cols : gmap string Series)
  : gmap string Series :=
  <["Histogram" := histogram_series close]>
    (<["Signal" := signal_series close]>
       (<["MACD" := macd_series close]> cols)).

Definition bb_upper (close : Series) : Series :=
  series_add (rolling_mean 20 close)
    (series_mul_scalar (rolling_std fsqrt 20 close) (Fin 2)).
Definition bb_lower (close : Series) : Series :=
  series_sub (rolling_mean 20 close)
    (series_mul_scalar (rolling_std fsqrt 20 close) (Fin 2)).

Definition bollinger_columns (close : Series) (cols : gmap string Series)
  : gmap string Series :=
  <["BB_Lower" := bb_lower close]>
    (<["BB_Upper" := bb_upper close]>
       (<["BB_Middle" := rolling_mean 20 close]> cols)).

Definition daily_return_columns (close : Series) (cols : gmap string Series)
  : gmap string Series :=
  <["Daily_Return" := series_mul_scalar (pct_change close) (Fin 100)]> cols.

(** The columns of [calculate_indicators]'s result. *)
Definition app_columns (close : Series) (cols : gmap string Series)
  : gmap string Series :=
  bollinger_columns close
    (macd_columns close
       (rsi_columns rsi_app close
          (volatility_columns close (sma_columns close cols)))).

(** The columns of [self.data] after [calculate_technical_indicators]. *)
Definition analyzer_columns (close : Series) (cols : gmap string Series)
  : gmap string Series :=
  daily_return_columns close
    (bollinger_columns close
       (macd_columns close
          (rsi_columns rsi_analyzer close
             (volatility_columns close (sma_columns close cols))))).

End Tables.

(** The names of the derived columns, and of the source columns. *)
Definition app_indicator_names : list string :=
  ["SMA_10"; "SMA_30"; "SMA_60"; "Volatility"; "RSI"; "MACD"; "Signal";
   "Histogram"; "BB_Middle"; "BB_Upper"; "BB_Lower"].
Definition analyzer_indicator_names : list string :=
  app_indicator_names ++ ["Daily_Return"].
Definition price_names : list string :=
  ["Open"; "High"; "Low"; "Close"; "Volume"].

(** The world [w] with the frame [df] at [d]. *)
Definition with_frame (d : loc) (w : World) (df : DataFrame) : World :=
  mkWorld (<[d := df]> (heap w)) (out w).

(** [block] returns [a], turns the columns [cols] of the frame at [d],
    whose Close column is [close], into [f cols], and touches nothing
    else. *)
Definition block_maps {A} (d : loc) (close : Series) (block : M A) (a : A)
    (f : gmap string Series -> gmap string Series) : Prop :=
  forall w df,
    heap w !! d = Some df ->
    columns df !! "Close" = Some close ->
    block w = Ok a (with_frame d w (mkDF (index df) (f (columns df)))).

(** [f] leaves the columns named in [keep] as they are. *)
Definition preserves (keep : list string)
    (f : gmap string Series -> gmap string Series) : Prop :=
  forall cols k, k ∈ keep -> f cols !! k = cols !! k.

(** ** The classification as the specification words it *)

(** The order of the extended reals; nothing is below or above NaN. *)
Definition f_lt (x y : float64) : Prop :=
  match x, y with
  | Fin a, Fin b => (a < b)%Q
  | NInf, Fin _ | NInf, PInf | Fin _, PInf => True
  | _, _ => False
  end.
Definition f_gt (x y : float64) : Prop := f_lt y x.

(** A value is defined when it is not NaN. *)
Definition defined (x : float64) : Prop := x <> NaN.

(** An ordered decision table: the label of the first rule that holds. *)
Definition first_match {L} (rules : list (Prop * L)) (l : L) : Prop :=
  exists pre P post,
    rules = pre ++ (P, l) :: post /\ P /\ Forall (fun r => ~ r.1) pre.

Definition trend_rules (close s10 s30 : float64) : list (Prop * Trend) :=
  [ (f_gt close s10 /\ f_gt s10 s30, StrongBullish);
    (f_gt close s10, Bullish);
    (f_lt close s10 /\ f_lt s10 s30, StrongBearish);
    (f_lt close s10, Bearish);
    (True, Sideways) ].

(** ** Reading results *)

Definition world_of {A} (o : outcome A) : World :=
  match o with Ok _ w => w | Raise _ w => w end.

Definition value_of {A} (o : outcome A) : option A :=
  match o with Ok a _ => Some a | Raise _ _ => None end.

Definition raised {A} (o : outcome A) : option exn :=
  match o with Ok _ _ => None | Raise e _ => Some e end.

(** The column [c] of the frame at [l] in [w]. *)
Definition frame_column (w : World) (l : loc) (c : string) : option Series :=
  df ← heap w !! l; columns df !! c.

(** ** Concrete inputs *)

(** A stand-in for the square root where a run needs one: the integer
    square root of the numerator over the denominator, exact on squares. *)
Definition fsqrt_floor (x : float64) : float64 :=
  match x with
  | NaN | NInf => NaN
  | PInf => PInf
  | Fin q =>
      if Qneg_b q then NaN
      else fin (Z.sqrt (Qnum q * Zpos (Qden q)) # Qden q)
  end.

(** A price table with the given closes, one bar per close; the other
    price columns repeat the close and the volume is 1000 throughout. *)
Definition prices (closes : Series) : DataFrame :=
  mkDF (Z.of_nat <$> seq 0 (length closes))
    (<["Open" := closes]>
       (<["High" := closes]>
          (<["Low" := closes]>
             (<["Close" := closes]>
                (<["Volume" := replicate (length closes) (Fin 1000)]> ∅))))).

(** Closes 100, 101, ..., one more each bar. *)
Definition rising (n : nat) : Series := (fun k => of_nat (100 + k)) <$> seq 0 n.
(** Closes 100 throughout. *)
Definition flat (n : nat) : Series := replicate n (Fin 100).

(** A world whose only object is the table [df], at location 0. *)
Definition world_with (df : DataFrame) : World :=
  mkWorld {[ 0 := df ]} [].

Definition empty_world : World := mkWorld ∅ [].

(** An analyzer whose [self.data] is the object at location 0. *)
Definition analyzer0 : StockAnalyzer := mkAnalyzer "AAPL" "1mo" (Some 0).

(** A data source that answers every request with [df]. *)
Definition always (df : DataFrame) (t p : string) : option DataFrame := Some df.

(** The RSI of one row, from the average gain and the average loss. *)
Definition rsi_value (gain loss : float64) : float64 :=
  fsub (Fin 100) (fdiv (Fin 100) (fadd (Fin 1) (fdiv gain loss))).

(** The value at row [i] of the column [c] of the table a run produced. *)
Definition cell (w : World) (l : loc) (c : string) (i : nat) : option float64 :=
  s ← frame_column w l c; s !! i.

(** The same for a run that returns its table. *)
Definition result_cell (o : outcome loc) (c : string) (i : nat) : option float64 :=
  l ← value_of o; cell (world_of o) l c i.

(** The column [c] of the table a run returned. *)
Definition result_column (o : outcome loc) (c : string) : option Series :=
  l ← value_of o; frame_column (world_of o) l c.

(** ** The comparison set *)









(** ** Gains and losses row by row *)

(** The gain and the loss of one close-to-close change. *)
Definition gain_of (delta : float64) : float64 :=
  if fgt delta (Fin 0) then delta else Fin 0.
Definition loss_of (delta : float64) : float64 :=
  fneg (if flt delta (Fin 0) then delta else Fin 0).

Definition is_zero (x : float64) : Prop := exists q, x = Fin q /\ (q == 0)%Q.
Definition is_nonneg (x : float64) : Prop := exists q, x = Fin q /\ (0 <= q)%Q.
Definition is_pos (x : float64) : Prop := exists q, x = Fin q /\ (0 < q)%Q.

(** Over the fourteen rows that end at row [i] of the closes [qs]: no close
    is below the close before it; none is above; one at least is above. *)
Definition no_fall (qs : list Q) (i : nat) : Prop :=
  forall k a b, i - 13 <= S k <= i ->
    qs !! k = Some a -> qs !! S k = Some b -> (a <= b)%Q.
Definition no_rise (qs : list Q) (i : nat) : Prop :=
  forall k a b, i - 13 <= S k <= i ->
    qs !! k = Some a -> qs !! S k = Some b -> (b <= a)%Q.
Definition some_rise (qs : list Q) (i : nat) : Prop :=
  exists k a b, i - 13 <= S k <= i /\
    qs !! k = Some a /\ qs !! S k = Some b /\ (a < b)%Q.

(** ** Monad steps *)

Lemma bind_ok {A B} (m : M A) (k : A -> M B) w a w' :
  m w = Ok a w' -> (m ≫= k) w = k a w'.
Proof. intros H. unfold mbind, M_bind, bind. by rewrite H. Qed.

Lemma bind_raise {A B} (m : M A) (k : A -> M B) w e w' :
  m w = Raise e w' -> (m ≫= k) w = Raise e w'.
Proof. intros H. unfold mbind, M_bind, bind. by rewrite H. Qed.

Lemma deref_ok l w df : heap w !! l = Some df -> deref l w = Ok df w.
Proof. intros H. unfold deref. by rewrite H. Qed.

Lemma getitem_ok l c w df s :
  heap w !! l = Some df -> columns df !! c = Some s -> getitem l c w = Ok s w.
Proof.
  intros Hl Hc. unfold getitem. rewrite (bind_ok _ _ _ _ _ (deref_ok _ _ _ Hl)).
  by rewrite Hc.
Qed.

Lemma getitem_missing l c w df :
  heap w !! l = Some df -> columns df !! c = None ->
  getitem l c w = Raise (KeyError c) w.
Proof.
  intros Hl Hc. unfold getitem. rewrite (bind_ok _ _ _ _ _ (deref_ok _ _ _ Hl)).
  by rewrite Hc.
Qed.

Lemma setitem_ok l c s w df :
  heap w !! l = Some df ->
  setitem l c s w
  = Ok tt (mkWorld (<[l := mkDF (index df) (<[c := s]> (columns df))]> (heap w))
             (out w)).
Proof.
  intros Hl. unfold setitem. by rewrite (bind_ok _ _ _ _ _ (deref_ok _ _ _ Hl)).
Qed.

(** Running one [c <- d[k]] or [d[k] = s] of a block on a known frame. *)
Ltac run_get :=
  erewrite (bind_ok (getitem _ _));
    [ | eapply getitem_ok;
        [ cbn [heap]; first [ eassumption | apply lookup_insert_eq ]
        | cbn [columns];
          repeat first [ rewrite lookup_insert_eq | rewrite lookup_insert_ne by done ];
          first [ eassumption | reflexivity ] ] ].
Ltac run_set :=
  first [ erewrite (bind_ok (setitem _ _ _)) | erewrite setitem_ok ];
    [ cbn [heap out index columns]; rewrite ?insert_insert_eq
    | first [ eapply setitem_ok | idtac ]; cbn [heap];
      first [ eassumption | apply lookup_insert_eq ] ].

Section BlockRuns.

Variable fsqrt : float64 -> float64.
Variables (d : loc) (close : Series).

Lemma moving_averages_run :
  block_maps d close (moving_averages d) tt (sma_columns close).
Proof.
  intros w df Hl Hc. unfold moving_averages, with_frame.
  do 3 (run_get; run_set). reflexivity.
Qed.

Lemma volatility_block_run :
  block_maps d close (volatility_block fsqrt d) tt (volatility_columns fsqrt close).
Proof.
  intros w df Hl Hc. unfold volatility_block, with_frame.
  run_get. run_set. reflexivity.
Qed.

Lemma rsi_block_run rsi_of :
  block_maps d close (rsi_block rsi_of d) tt (rsi_columns rsi_of close).
Proof.
  intros w df Hl Hc. unfold rsi_block, with_frame.
  run_get. run_set. reflexivity.
Qed.

Lemma macd_block_run :
  block_maps d close (macd_block d) tt (macd_columns close).
Proof.
  intros w df Hl Hc. unfold macd_block, with_frame.
  run_get. run_get. run_set. run_get. run_set. run_get. run_get. run_set.
  reflexivity.
Qed.

Lemma bollinger_block_run :
  block_maps d close (bollinger_block fsqrt d) tt (bollinger_columns fsqrt close).
Proof.
  intros w df Hl Hc. unfold bollinger_block, with_frame.
  run_get. run_set. run_get. run_get. run_set. run_get. run_set.
  reflexivity.
Qed.

Lemma daily_return_block_run :
  block_maps d close (daily_return_block d) tt (daily_return_columns close).
Proof.
  intros w df Hl Hc. unfold daily_return_block, with_frame.
  run_get. run_set. reflexivity.
Qed.

Lemma block_bind {A B} (b1 : M A) (k : A -> M B) a1 a2 f1 f2 :
  block_maps d close b1 a1 f1 ->
  preserves ["Close"] f1 ->
  block_maps d close (k a1) a2 f2 ->
  block_maps d close (b1 ≫= k) a2 (fun cols => f2 (f1 cols)).
Proof.
  intros H1 Hp H2 w df Hl Hc.
  erewrite bind_ok by (by apply H1).
  erewrite H2; [ | apply lookup_insert_eq | ].
  - unfold with_frame. cbn [heap out index columns].
    by rewrite insert_insert_eq.
  - cbn [columns]. rewrite Hp; [ done | set_solver ].
Qed.

Lemma block_ret {A} (a : A) :
  block_maps d close (ret a) a (fun cols => cols).
Proof.
  intros [h o] [ix cols] Hl Hc. unfold with_frame. cbn in *.
  by rewrite insert_id.
Qed.

End BlockRuns.

(** *** What each block leaves alone *)

Ltac solve_preserves :=
  let cols := fresh "cols" in
  let k := fresh "k" in
  let Hk := fresh "Hk" in
  intros cols k Hk;
  repeat (apply elem_of_cons in Hk as [-> | Hk]);
  try (by apply elem_of_nil in Hk);
  cbv delta [sma_columns volatility_columns rsi_columns macd_columns
             bollinger_columns daily_return_columns] beta;
  by rewrite !lookup_insert_ne by done.

Lemma sma_columns_preserves close :
  preserves price_names (sma_columns close).
Proof. solve_preserves. Qed.

Lemma volatility_columns_preserves fsqrt close :
  preserves price_names (volatility_columns fsqrt close).
Proof. solve_preserves. Qed.

Lemma rsi_columns_preserves rsi_of close :
  preserves price_names (rsi_columns rsi_of close).
Proof. solve_preserves. Qed.

Lemma macd_columns_preserves close :
  preserves price_names (macd_columns close).
Proof. solve_preserves. Qed.

Lemma bollinger_columns_preserves fsqrt close :
  preserves price_names (bollinger_columns fsqrt close).
Proof. solve_preserves. Qed.

Lemma daily_return_columns_preserves close :
  preserves price_names (daily_return_columns close).
Proof. solve_preserves. Qed.

Lemma preserves_compose keep f g :
  preserves keep f -> preserves keep g -> preserves keep (fun cols => g (f cols)).
Proof. intros Hf Hg cols k Hk. by rewrite Hg, Hf. Qed.

Lemma preserves_weaken keep keep' f :
  keep' ⊆ keep -> preserves keep f -> preserves keep' f.
Proof. intros Hs Hf cols k Hk. apply Hf. apply Hs. exact Hk. Qed.

Lemma close_in_price_names : ["Close"] ⊆ price_names.
Proof.
  intros k Hk. apply list_elem_of_singleton in Hk as ->.
  unfold price_names. rewrite !elem_of_cons. tauto.
Qed.

Lemma preserves_close f : preserves price_names f -> preserves ["Close"] f.
Proof. apply preserves_weaken, close_in_price_names. Qed.

Create HintDb blocks.

#[local] Hint Resolve sma_columns_preserves volatility_columns_preserves
  rsi_columns_preserves macd_columns_preserves bollinger_columns_preserves
  daily_return_columns_preserves preserves_compose preserves_close : blocks.
#[local] Hint Resolve moving_averages_run volatility_block_run rsi_block_run
  macd_block_run bollinger_block_run daily_return_block_run : blocks.

Lemma app_columns_preserves fsqrt close :
  preserves price_names (app_columns fsqrt close).
Proof. unfold app_columns. auto 10 with blocks. Qed.

Lemma analyzer_columns_preserves fsqrt close :
  preserves price_names (analyzer_columns fsqrt close).
Proof. unfold analyzer_columns. auto 10 with blocks. Qed.

(** The five blocks that the two computations share, run in sequence and
    followed by the rest of the function. *)
Lemma shared_blocks_run {A} fsqrt d close rsi_of (rest : M A) a f :
  block_maps d close rest a f ->
  block_maps d close
    (moving_averages d;; volatility_block fsqrt d;; rsi_block rsi_of d;;
     macd_block d;; bollinger_block fsqrt d;; rest)
    a
    (fun cols =>
       f (bollinger_columns fsqrt close
            (macd_columns close
               (rsi_columns rsi_of close
                  (volatility_columns fsqrt close (sma_columns close cols)))))).
Proof.
  intros Hrest.
  apply (block_bind d close _ _ tt a (sma_columns close)
           (fun cols => f (bollinger_columns fsqrt close
              (macd_columns close
                 (rsi_columns rsi_of close (volatility_columns fsqrt close cols))))));
    [ auto with blocks | auto with blocks | ].
  apply (block_bind d close _ _ tt a (volatility_columns fsqrt close)
           (fun cols => f (bollinger_columns fsqrt close
              (macd_columns close (rsi_columns rsi_of close cols)))));
    [ auto with blocks | auto with blocks | ].
  apply (block_bind d close _ _ tt a (rsi_columns rsi_of close)
           (fun cols => f (bollinger_columns fsqrt close (macd_columns close cols))));
    [ auto with blocks | auto with blocks | ].
  apply (block_bind d close _ _ tt a (macd_columns close)
           (fun cols => f (bollinger_columns fsqrt close cols)));
    [ auto with blocks | auto with blocks | ].
  apply (block_bind d close _ _ tt a (bollinger_columns fsqrt close) f);
    auto with blocks.
Qed.

(** [calculate_technical_indicators] rewrites [self.data] where it is. *)
Lemma calculate_technical_indicators_run fsqrt self d close :
  data self = Some d ->
  block_maps d close (calculate_technical_indicators fsqrt self) tt
    (analyzer_columns fsqrt close).
Proof.
  intros Hd w df Hl Hc. unfold calculate_technical_indicators.
  erewrite bind_ok; [ | unfold self_data; rewrite Hd; reflexivity ].
  by apply (shared_blocks_run fsqrt d close rsi_analyzer _ tt
              (daily_return_columns close)); auto with blocks.
Qed.

(** [calculate_indicators] builds its table at a location that was not in
    use, and leaves every frame that was there as it was. *)
Lemma calculate_indicators_run fsqrt data w df close :
  heap w !! data = Some df ->
  columns df !! "Close" = Some close ->
  let l := fresh (dom (heap w)) in
  calculate_indicators fsqrt data w
  = Ok l (mkWorld (<[l := mkDF (index df) (app_columns fsqrt close (columns df))]> (heap w))
            (out w)).
Proof.
  intros Hl Hc l. unfold calculate_indicators.
  erewrite bind_ok; [ | unfold copy; erewrite bind_ok by (by apply deref_ok); reflexivity ].
  cbv beta. fold l.
  erewrite (shared_blocks_run fsqrt l close rsi_app (ret l) l (fun cols => cols));
    [ | apply block_ret | apply lookup_insert_eq | exact Hc ].
  unfold with_frame. cbn [heap out]. by rewrite insert_insert_eq.
Qed.

(** ** Order of float64 values *)

Lemma Qlt_b_spec a b : Qlt_b a b = true <-> (a < b)%Q.
Proof.
  unfold Qlt_b. rewrite negb_true_iff. split.
  - intros H. apply Qnot_le_lt. intros Hle.
    apply Qle_bool_iff in Hle. congruence.
  - intros H. destruct (Qle_bool b a) eqn:E; [ | done ].
    apply Qle_bool_iff in E. by apply Qlt_not_le in H.
Qed.

Lemma flt_spec x y : flt x y = true <-> f_lt x y.
Proof.
  destruct x, y; cbn; try (split; [ discriminate | tauto ]); try tauto.
  apply Qlt_b_spec.
Qed.

Lemma fgt_spec x y : fgt x y = true <-> f_gt x y.
Proof. apply flt_spec. Qed.

Lemma flt_false x y : flt x y = false <-> ~ f_lt x y.
Proof. rewrite <- flt_spec. destruct (flt x y); split; congruence. Qed.

Lemma fgt_false x y : fgt x y = false <-> ~ f_gt x y.
Proof. apply flt_false. Qed.

Lemma f_lt_irrefl x : ~ f_lt x x.
Proof. destruct x; cbn; try tauto. apply Qlt_irrefl. Qed.

Lemma f_lt_nan_l x : ~ f_lt NaN x.
Proof. destruct x; cbn; tauto. Qed.

Lemma f_lt_nan_r x : ~ f_lt x NaN.
Proof. destruct x; cbn; tauto. Qed.

Lemma is_nan_defined x : is_nan x = false <-> defined x.
Proof. unfold defined. destruct x; cbn; split; congruence. Qed.

Lemma nan_to_zero_defined x : defined x -> nan_to_zero x = x.
Proof. intros H. unfold nan_to_zero. apply is_nan_defined in H. by rewrite H. Qed.

(** ** Decision tables *)

Lemma first_match_hit {L} (P : Prop) (l : L) rules :
  P -> first_match ((P, l) :: rules) l.
Proof. intros HP. exists [], P, rules. by repeat split. Qed.

Lemma first_match_miss {L} (P : Prop) (l l' : L) rules :
  ~ P -> first_match rules l -> first_match ((P, l') :: rules) l.
Proof.
  intros HP (pre & Q & post & -> & HQ & Hpre).
  exists ((P, l') :: pre), Q, post. repeat split; [ done | ].
  by constructor.
Qed.

Lemma first_match_inv {L} (P : Prop) (l l' : L) rules :
  first_match ((P, l') :: rules) l ->
  (P /\ l = l') \/ (~ P /\ first_match rules l).
Proof.
  intros (pre & Q & post & Heq & HQ & Hpre).
  destruct pre as [ | r pre ]; cbn in Heq.
  - injection Heq as HP Hl Hr. subst. by left.
  - injection Heq as Hr Hpost. subst. right. inversion Hpre; subst.
    split; [ done | ]. by exists pre, Q, post.
Qed.

Lemma first_match_nil {L} (l : L) : ~ first_match [] l.
Proof. intros (pre & Q & post & Heq & _). by destruct pre. Qed.

(** ** Trend, RSI and MACD labels *)

(** Turns the tests of an if-chain into facts about the order. *)
Ltac order_facts :=
  repeat match goal with
         | H : fgt _ _ = true |- _ => apply fgt_spec in H
         | H : fgt _ _ = false |- _ => apply fgt_false in H
         | H : flt _ _ = true |- _ => apply flt_spec in H
         | H : flt _ _ = false |- _ => apply flt_false in H
         end.

Ltac walk_table :=
  repeat first
    [ apply first_match_hit; tauto
    | apply first_match_miss; [ tauto | ] ].

Lemma trend_of_first_match close s10 s30 :
  first_match (trend_rules close s10 s30) (trend_of close s10 s30).
Proof.
  unfold trend_rules, trend_of.
  destruct (fgt close s10) eqn:E1, (fgt s10 s30) eqn:E2,
    (flt close s10) eqn:E3, (flt s10 s30) eqn:E4;
    cbn [andb]; order_facts; walk_table.
Qed.

Lemma first_match_trend_unique close s10 s30 l l' :
  first_match (trend_rules close s10 s30) l ->
  first_match (trend_rules close s10 s30) l' ->
  l = l'.
Proof.
  unfold trend_rules. intros H H'.
  repeat match goal with
         | H : first_match (_ :: _) _ |- _ =>
             apply first_match_inv in H as [[? ->] | [? H]]
         | H : first_match [] _ |- _ => by apply first_match_nil in H
         end; tauto || reflexivity.
Qed.

Lemma app_trend_defined close s10 s30 :
  defined s10 -> defined s30 -> app_trend close s10 s30 = trend_of close s10 s30.
Proof.
  intros H1 H2. apply is_nan_defined in H1, H2.
  unfold app_trend, trend_of. by rewrite H1, H2.
Qed.

Lemma app_trend_undefined close s10 s30 :
  s10 = NaN \/ s30 = NaN -> app_trend close s10 s30 = InsufficientData.
Proof.
  intros [-> | ->]; unfold app_trend; cbn; [ done | ].
  by destruct (is_nan s10).
Qed.

Lemma trend_of_never_insufficient close s10 s30 :
  trend_of close s10 s30 <> InsufficientData.
Proof.
  unfold trend_of.
  by destruct (fgt close s10), (fgt s10 s30), (flt close s10), (flt s10 s30).
Qed.

(** C5. On a last row whose close, SMA_10 and SMA_30 are defined, the
    label of [analyze_trend] and the label of app.py's badge are each the
    label of the first rule that holds in the ordered table: strong
    bullish, bullish, strong bearish, bearish, else sideways. *)
Theorem C5_trend_is_first_matching_rule close s10 s30 l :
  defined close -> defined s10 -> defined s30 ->
  (first_match (trend_rules close s10 s30) l <-> trend_of close s10 s30 = l) /\
  (first_match (trend_rules close s10 s30) l <-> app_trend close s10 s30 = l).
Proof.
  intros _ H10 H30. rewrite (app_trend_defined close s10 s30 H10 H30).
  assert (first_match (trend_rules close s10 s30) l <-> trend_of close s10 s30 = l)
    as Hiff.
  { split.
    - intros H. eapply first_match_trend_unique; [ apply trend_of_first_match | done ].
    - intros <-. apply trend_of_first_match. }
  by split.
Qed.

(** The three rows the specification lists: 110/105/100 is strong bullish,
    90/95/100 is strong bearish, 100/100/100 is sideways. *)
Lemma C5_trend_examples :
  (defined (Fin 110) /\ defined (Fin 105) /\ defined (Fin 100) /\ defined (Fin 90)
   /\ defined (Fin 95)) /\
  first_match (trend_rules (Fin 110) (Fin 105) (Fin 100)) StrongBullish /\
  first_match (trend_rules (Fin 90) (Fin 95) (Fin 100)) StrongBearish /\
  first_match (trend_rules (Fin 100) (Fin 100) (Fin 100)) Sideways /\
  app_trend (Fin 110) (Fin 105) (Fin 100) = StrongBullish /\
  app_trend (Fin 90) (Fin 95) (Fin 100) = StrongBearish /\
  app_trend (Fin 100) (Fin 100) (Fin 100) = Sideways.
Proof.
  assert (forall q, defined (Fin q)) as Hd by (intros q; unfold defined; discriminate).
  pose proof (C5_trend_is_first_matching_rule (Fin 110) (Fin 105) (Fin 100)
                StrongBullish (Hd _) (Hd _) (Hd _)) as [Ha Ha'].
  pose proof (C5_trend_is_first_matching_rule (Fin 90) (Fin 95) (Fin 100)
                StrongBearish (Hd _) (Hd _) (Hd _)) as [Hb Hb'].
  pose proof (C5_trend_is_first_matching_rule (Fin 100) (Fin 100) (Fin 100)
                Sideways (Hd _) (Hd _) (Hd _)) as [Hc Hc'].
  split; [ repeat split; apply Hd | ].
  split; [ apply Ha; reflexivity | ].
  split; [ apply Hb; reflexivity | ].
  split; [ apply Hc; reflexivity | ].
  split; [ apply Ha', Ha; reflexivity | ].
  split; [ apply Hb', Hb; reflexivity | apply Hc', Hc; reflexivity ].
Defined.

Lemma macd_signal_of_spec macd signal :
  (macd_signal_of macd signal = MacdBullish <-> f_gt macd signal) /\
  (macd_signal_of macd signal = MacdBearish <-> ~ f_gt macd signal).
Proof.
  unfold macd_signal_of.
  destruct (fgt macd signal) eqn:E; order_facts; split; split;
    first [ done | tauto | discriminate ].
Qed.

Lemma app_macd_label_eq macd_val signal_val :
  app_macd_label macd_val signal_val = macd_signal_of macd_val signal_val.
Proof. reflexivity. Qed.

(** C6. With MACD and Signal defined on the last row, the MACD label is
    the bullish one exactly when MACD > Signal, strictly, and the bearish
    one otherwise; equal values give the bearish label.  This holds for the
    label of [analyze_trend] and for the one on app.py's metric card. *)
Theorem C6_macd_label_is_strict_comparison macd signal :
  defined macd -> defined signal ->
  (macd_signal_of macd signal = MacdBullish <-> f_gt macd signal) /\
  (macd_signal_of macd signal = MacdBearish <-> ~ f_gt macd signal) /\
  (app_macd_label (nan_to_zero macd) (nan_to_zero signal) = MacdBullish
   <-> f_gt macd signal) /\
  (app_macd_label (nan_to_zero macd) (nan_to_zero signal) = MacdBearish
   <-> ~ f_gt macd signal) /\
  (macd = signal ->
   macd_signal_of macd signal = MacdBearish /\
   app_macd_label (nan_to_zero macd) (nan_to_zero signal) = MacdBearish).
Proof.
  intros Hm Hs.
  rewrite (nan_to_zero_defined macd Hm), (nan_to_zero_defined signal Hs).
  change (app_macd_label macd signal) with (macd_signal_of macd signal).
  destruct (macd_signal_of_spec macd signal) as [Hbull Hbear].
  split; [ exact Hbull | ]. split; [ exact Hbear | ].
  split; [ exact Hbull | ]. split; [ exact Hbear | ].
  intros Heq. assert (macd_signal_of macd signal = MacdBearish) as Htie.
  { apply Hbear. rewrite Heq. apply f_lt_irrefl. }
  by split.
Qed.

(** MACD = Signal = 0.5 is the bearish state. *)
Lemma C6_macd_tie_is_bearish :
  (defined (Fin (1 # 2))) /\
  macd_signal_of (Fin (1 # 2)) (Fin (1 # 2)) = MacdBearish /\
  app_macd_label (nan_to_zero (Fin (1 # 2))) (nan_to_zero (Fin (1 # 2))) = MacdBearish.
Proof.
  assert (defined (Fin (1 # 2))) as Hd by (unfold defined; discriminate).
  split; [ exact Hd | ].
  apply (C6_macd_label_is_strict_comparison (Fin (1 # 2)) (Fin (1 # 2)) Hd Hd).
  reflexivity.
Defined.

Lemma rsi_signal_of_spec rsi :
  (rsi_signal_of rsi = Overbought <-> f_gt rsi (Fin 70)) /\
  (rsi_signal_of rsi = Oversold <-> f_lt rsi (Fin 30)) /\
  (rsi_signal_of rsi = Neutral <-> ~ f_gt rsi (Fin 70) /\ ~ f_lt rsi (Fin 30)).
Proof.
  unfold rsi_signal_of.
  destruct (fgt rsi (Fin 70)) eqn:E1, (flt rsi (Fin 30)) eqn:E2; order_facts;
    repeat split; try done; try tauto; try discriminate.
  all: intros H; exfalso; destruct rsi; cbn in *; try tauto.
  all: unfold f_gt in *; cbn in *;
    (apply (Qlt_irrefl 70), (Qlt_trans _ q); [ done | ]);
    by apply (Qlt_trans _ 30).
Qed.

Lemma rsi_signal_of_nan : rsi_signal_of NaN = Neutral.
Proof. reflexivity. Qed.

Lemma app_rsi_label_eq rsi : app_rsi_label rsi = rsi_signal_of rsi.
Proof. reflexivity. Qed.

(** The default that app.py puts in the place of an undefined RSI is below
    30, and so reads as oversold. *)
Lemma app_rsi_label_of_undefined : app_rsi_label (nan_to_zero NaN) = Oversold.
Proof. reflexivity. Qed.

(** ** What a run that returned went through *)

Lemma bind_inv {A B} (m : M A) (k : A -> M B) w b w' :
  (m ≫= k) w = Ok b w' -> exists a w1, m w = Ok a w1 /\ k a w1 = Ok b w'.
Proof.
  unfold mbind, M_bind, bind. destruct (m w) as [a w1 | e w1]; [ | done ].
  intros H. by exists a, w1.
Qed.

Lemma self_data_inv self w d w' :
  self_data self w = Ok d w' -> w' = w /\ data self = Some d.
Proof.
  unfold self_data. destruct (data self); cbv [ret raise]; intros H; by simplify_eq.
Qed.

Lemma getitem_inv l c w s w' :
  getitem l c w = Ok s w' -> w' = w /\ frame_column w l c = Some s.
Proof.
  unfold getitem, frame_column. intros (df & w1 & Hd & H)%bind_inv.
  unfold deref in Hd. destruct (heap w !! l) as [df' | ] eqn:E; simplify_eq.
  cbn. destruct (columns df !! c); cbv [ret raise] in H; by simplify_eq.
Qed.

Lemma iloc_last_inv s w x w' :
  iloc_last s w = Ok x w' -> w' = w /\ last s = Some x.
Proof.
  unfold iloc_last, iloc_from_end. rewrite <- head_lookup, head_reverse.
  destruct (last s); cbv [ret raise]; intros H; by simplify_eq.
Qed.

Lemma iloc_first_inv s w x w' :
  iloc_first s w = Ok x w' -> w' = w /\ head s = Some x.
Proof.
  unfold iloc_first. rewrite <- head_lookup.
  destruct (head s); cbv [ret raise]; intros H; by simplify_eq.
Qed.

(** The last value of the column [c] of the frame at [l]. *)
Lemma last_of_column w l c s x :
  frame_column w l c = Some s -> last s = Some x ->
  (frame_column w l c ≫= last) = Some x.
Proof. intros -> H. exact H. Qed.

(** [analyze_trend] reads the last row of [self.data], changes nothing,
    and labels what it read with the three if-chains. *)
Lemma analyze_trend_inv self w a w' :
  analyze_trend self w = Ok a w' ->
  w' = w /\
  exists d, data self = Some d /\
    (frame_column w d "Close" ≫= last) = Some (latest_price a) /\
    (frame_column w d "SMA_10" ≫= last) = Some (sma_10 a) /\
    (frame_column w d "SMA_30" ≫= last) = Some (sma_30 a) /\
    (frame_column w d "RSI" ≫= last) = Some (rsi a) /\
    (frame_column w d "MACD" ≫= last) = Some (macd a) /\
    (frame_column w d "Signal" ≫= last) = Some (signal a) /\
    trend a = trend_of (latest_price a) (sma_10 a) (sma_30 a) /\
    rsi_signal a = rsi_signal_of (rsi a) /\
    macd_signal a = macd_signal_of (macd a) (signal a).
Proof.
  unfold analyze_trend. intros H.
  apply bind_inv in H as (d & ? & [-> Hd]%self_data_inv & H).
  repeat match type of H with
         | (getitem _ _ ≫= _) _ = Ok _ _ =>
             let Hc := fresh "Hc" in
             apply bind_inv in H as (? & ? & [-> Hc]%getitem_inv & H)
         | (iloc_last _ ≫= _) _ = Ok _ _ =>
             let Hx := fresh "Hx" in
             apply bind_inv in H as (? & ? & [-> Hx]%iloc_last_inv & H)
         | (iloc_first _ ≫= _) _ = Ok _ _ =>
             let Hx := fresh "Hx" in
             apply bind_inv in H as (? & ? & [-> Hx]%iloc_first_inv & H)
         end.
  cbv [ret] in H. injection H as <- <-. cbn.
  split; [ done | ]. exists d. split; [ done | ].
  repeat split; try reflexivity;
    match goal with
    | H : frame_column _ _ ?c = Some ?s, H' : last ?s = Some ?x
      |- frame_column _ _ ?c ≫= last = Some ?x => by apply (last_of_column _ _ _ s)
    end.
Qed.

Lemma deref_inv l w df w' : deref l w = Ok df w' -> w' = w /\ heap w !! l = Some df.
Proof. unfold deref. destruct (heap w !! l); intros H; by simplify_eq. Qed.

Lemma len_inv l w n w' : len l w = Ok n w' -> w' = w.
Proof.
  unfold len. intros (df & w1 & [-> _]%deref_inv & H)%bind_inv.
  cbv [ret] in H. by simplify_eq.
Qed.

Lemma iloc_from_end_inv s k w x w' : iloc_from_end s k w = Ok x w' -> w' = w.
Proof.
  unfold iloc_from_end. destruct (reverse s !! k); cbv [ret raise]; intros H;
    by simplify_eq.
Qed.

(** Steps through the reads of a run that returned. *)
Ltac invert_reads H :=
  repeat match type of H with
         | (getitem _ _ ≫= _) _ = Ok _ _ =>
             let Hc := fresh "Hc" in
             apply bind_inv in H as (? & ? & [-> Hc]%getitem_inv & H)
         | (iloc_last _ ≫= _) _ = Ok _ _ =>
             let Hx := fresh "Hx" in
             apply bind_inv in H as (? & ? & [-> Hx]%iloc_last_inv & H)
         | (iloc_first _ ≫= _) _ = Ok _ _ =>
             let Hx := fresh "Hx" in
             apply bind_inv in H as (? & ? & [-> Hx]%iloc_first_inv & H)
         | (len _ ≫= _) _ = Ok _ _ =>
             apply bind_inv in H as (? & ? & ->%len_inv & H)
         end.

Lemma single_symbol_mode_inv fsqrt yf t p w s w' :
  single_symbol_mode fsqrt yf t p w = Ok s w' ->
  exists sma10 sma30 r m sg,
    (frame_column w' (app_table s) "Close" ≫= last) = Some (app_latest s) /\
    (frame_column w' (app_table s) "SMA_10" ≫= last) = Some sma10 /\
    (frame_column w' (app_table s) "SMA_30" ≫= last) = Some sma30 /\
    (frame_column w' (app_table s) "RSI" ≫= last) = Some r /\
    (frame_column w' (app_table s) "MACD" ≫= last) = Some m /\
    (frame_column w' (app_table s) "Signal" ≫= last) = Some sg /\
    app_trend_text s = app_trend (app_latest s) sma10 sma30 /\
    app_rsi s = nan_to_zero r /\
    app_rsi_text s = app_rsi_label (app_rsi s) /\
    app_macd_val s = nan_to_zero m /\
    app_signal_val s = nan_to_zero sg /\
    app_macd_text s = app_macd_label (app_macd_val s) (app_signal_val s).
Proof.
  unfold single_symbol_mode. intros H.
  apply bind_inv in H as (d0 & w0 & _ & H).
  apply bind_inv in H as (df & ? & [-> _]%deref_inv & H).
  destruct (df_empty df).
  { apply bind_inv in H as (? & ? & _ & H). discriminate H. }
  apply bind_inv in H as (d & w1 & _ & H).
  invert_reads H.
  apply bind_inv in H as (prev & w2 & Hprev & H).
  assert (w2 = w1) as ->.
  { destruct (decide (1 < _)).
    - apply bind_inv in Hprev as (? & ? & [-> _]%getitem_inv & Hprev).
      by apply iloc_from_end_inv in Hprev.
    - cbv [ret] in Hprev. by simplify_eq. }
  invert_reads H.
  cbv [ret] in H. injection H as <- <-. cbn.
  eexists _, _, _, _, _.
  repeat split; try reflexivity;
    match goal with
    | H : frame_column _ _ ?c = Some ?s, H' : last ?s = Some ?x
      |- frame_column _ _ ?c ≫= last = Some ?x => by apply (last_of_column _ _ _ s)
    | H : frame_column _ _ ?c = Some ?s, H' : last ?s = Some _
      |- frame_column _ _ ?c ≫= last = Some _ => by apply (last_of_column _ _ _ s)
    end.
Qed.

(** The label [analyze_trend] returns is the one the ordered table gives
    for the last row it read. *)
Lemma analyze_trend_follows_table self w a w' :
  analyze_trend self w = Ok a w' ->
  first_match (trend_rules (latest_price a) (sma_10 a) (sma_30 a)) (trend a).
Proof.
  intros (_ & d & _ & _ & _ & _ & _ & _ & _ & -> & _)%analyze_trend_inv.
  apply trend_of_first_match.
Qed.

(** The signals [analyze_trend] returns, in terms of the row it read. *)
Lemma analyze_trend_signals self w a w' :
  analyze_trend self w = Ok a w' ->
  (rsi_signal a = Overbought <-> f_gt (rsi a) (Fin 70)) /\
  (rsi_signal a = Oversold <-> f_lt (rsi a) (Fin 30)) /\
  (rsi a = NaN -> rsi_signal a = Neutral) /\
  (macd_signal a = MacdBullish <-> f_gt (macd a) (signal a)) /\
  (macd_signal a = MacdBearish <-> ~ f_gt (macd a) (signal a)) /\
  trend a <> InsufficientData.
Proof.
  intros (_ & d & _ & _ & _ & _ & _ & _ & _ & Ht & -> & ->)%analyze_trend_inv.
  destruct (rsi_signal_of_spec (rsi a)) as (Ho & Hs & _).
  destruct (macd_signal_of_spec (macd a) (signal a)) as [Hb Hb'].
  split; [ exact Ho | ]. split; [ exact Hs | ].
  split; [ by intros -> | ].
  split; [ exact Hb | ]. split; [ exact Hb' | ].
  rewrite Ht. apply trend_of_never_insufficient.
Qed.

(** The badge and the labels of the single-symbol page, in terms of the
    last row of the table it computed. *)
Lemma single_symbol_mode_labels fsqrt yf t p w s w' sma10 sma30 r :
  single_symbol_mode fsqrt yf t p w = Ok s w' ->
  (frame_column w' (app_table s) "SMA_10" ≫= last) = Some sma10 ->
  (frame_column w' (app_table s) "SMA_30" ≫= last) = Some sma30 ->
  (frame_column w' (app_table s) "RSI" ≫= last) = Some r ->
  (defined sma10 -> defined sma30 ->
   first_match (trend_rules (app_latest s) sma10 sma30) (app_trend_text s)) /\
  (sma10 = NaN \/ sma30 = NaN -> app_trend_text s = InsufficientData) /\
  (defined r -> app_rsi_text s = rsi_signal_of r) /\
  (r = NaN -> app_rsi s = Fin 0 /\ app_rsi_text s = Oversold).
Proof.
  intros (a & b & c & m & sg & _ & Ha & Hb & Hc & _ & _ & Ht & Hr & Hl & _)
    %single_symbol_mode_inv H10 H30 Hrsi.
  assert (a = sma10) as -> by congruence.
  assert (b = sma30) as -> by congruence.
  assert (c = r) as -> by congruence.
  rewrite Ht, Hl, Hr.
  split; [ | split; [ | split ] ].
  - intros Hd1 Hd2. rewrite app_trend_defined by done. apply trend_of_first_match.
  - apply app_trend_undefined.
  - intros Hd. by rewrite nan_to_zero_defined.
  - by intros ->.
Qed.

(** ** RSI on a row *)

Lemma Qzero_b_spec q : Qzero_b q = true <-> (q == 0)%Q.
Proof.
  unfold Qzero_b, Qeq. cbn. rewrite Z.eqb_eq. lia.
Qed.

Lemma Qpos_b_spec q : Qpos_b q = true <-> (0 < q)%Q.
Proof. unfold Qpos_b, Qlt. cbn. rewrite Z.ltb_lt. lia. Qed.

Lemma Qneg_b_spec q : Qneg_b q = true <-> (q < 0)%Q.
Proof. unfold Qneg_b, Qlt. cbn. rewrite Z.ltb_lt. lia. Qed.

Lemma fdiv_pos_zero g l : (0 < g)%Q -> (l == 0)%Q -> fdiv (Fin g) (Fin l) = PInf.
Proof.
  intros Hg Hl. unfold fdiv. apply Qzero_b_spec in Hl. rewrite Hl.
  destruct (Qzero_b g) eqn:Ez.
  - apply Qzero_b_spec in Ez. rewrite Ez in Hg. by apply Qlt_irrefl in Hg.
  - destruct (Qneg_b g) eqn:En; [ | done ].
    apply Qneg_b_spec in En. exfalso. apply (Qlt_irrefl 0).
    by apply (Qlt_trans 0 g 0).
Qed.

Lemma fdiv_zero_zero g l : (g == 0)%Q -> (l == 0)%Q -> fdiv (Fin g) (Fin l) = NaN.
Proof.
  intros Hg Hl. unfold fdiv.
  apply Qzero_b_spec in Hg, Hl. by rewrite Hl, Hg.
Qed.

(** Zero average loss and positive average gain: RS is infinite, RSI is 100. *)
Lemma rsi_value_zero_loss g l :
  (0 < g)%Q -> (l == 0)%Q -> rsi_value (Fin g) (Fin l) = Fin 100.
Proof. intros Hg Hl. unfold rsi_value. by rewrite fdiv_pos_zero. Qed.

(** Either infinity for RS gives 100: the sign of the zero divisor, which
    float64 has and this model has not, does not reach the RSI. *)
Lemma rsi_value_of_infinite_rs :
  fsub (Fin 100) (fdiv (Fin 100) (fadd (Fin 1) PInf)) = Fin 100 /\
  fsub (Fin 100) (fdiv (Fin 100) (fadd (Fin 1) NInf)) = Fin 100.
Proof. by split. Qed.

(** Zero average loss and zero average gain: RS is 0/0, RSI is NaN. *)
Lemma rsi_value_zero_zero g l :
  (g == 0)%Q -> (l == 0)%Q -> rsi_value (Fin g) (Fin l) = NaN.
Proof. intros Hg Hl. unfold rsi_value. by rewrite fdiv_zero_zero. Qed.

Lemma rsi_analyzer_lookup close i g l :
  rsi_gain close !! i = Some g -> rsi_loss close !! i = Some l ->
  rsi_analyzer close !! i = Some (rsi_value g l).
Proof.
  intros Hg Hl. unfold rsi_analyzer, scalar_sub, scalar_div, scalar_add, series_div.
  rewrite !list_lookup_fmap, lookup_zip_with.
  fold (rsi_gain close). fold (rsi_loss close). by rewrite Hg, Hl.
Qed.

Lemma analyzer_rsi_column fsqrt close cols :
  analyzer_columns fsqrt close cols !! "RSI" = Some (rsi_analyzer close).
Proof.
  unfold analyzer_columns, daily_return_columns, bollinger_columns, macd_columns,
    rsi_columns.
  rewrite !lookup_insert_ne by done. apply lookup_insert_eq.
Qed.

Lemma app_rsi_column fsqrt close cols :
  app_columns fsqrt close cols !! "RSI" = Some (rsi_app close).
Proof.
  unfold app_columns, bollinger_columns, macd_columns, rsi_columns.
  rewrite !lookup_insert_ne by done. apply lookup_insert_eq.
Qed.

(** The RSI cell of [self.data] after [calculate_technical_indicators]. *)
Lemma analyzer_rsi_cell fsqrt self d w df close i :
  data self = Some d -> heap w !! d = Some df -> columns df !! "Close" = Some close ->
  raised (calculate_technical_indicators fsqrt self w) = None /\
  cell (world_of (calculate_technical_indicators fsqrt self w)) d "RSI" i
  = rsi_analyzer close !! i.
Proof.
  intros Hd Hl Hc.
  rewrite (calculate_technical_indicators_run fsqrt self d close Hd w df Hl Hc).
  split; [ done | ].
  unfold cell, frame_column, with_frame. cbn.
  rewrite lookup_insert_eq. cbn. by rewrite analyzer_rsi_column.
Qed.

(** The RSI cell of the table [calculate_indicators] returns. *)
Lemma app_rsi_cell fsqrt d w df close i :
  heap w !! d = Some df -> columns df !! "Close" = Some close ->
  raised (calculate_indicators fsqrt d w) = None /\
  result_cell (calculate_indicators fsqrt d w) "RSI" i = rsi_app close !! i.
Proof.
  intros Hl Hc.
  rewrite (calculate_indicators_run fsqrt d w df close Hl Hc).
  split; [ done | ].
  unfold result_cell, cell, frame_column. cbn.
  rewrite lookup_insert_eq. cbn. by rewrite app_rsi_column.
Qed.

(** C1, as the code has it.  On a row where the trailing-14 average loss
    is 0, neither computation raises; the RSI is exactly 100 when the
    trailing-14 average gain is positive, and NaN when the average gain is
    0 as well. *)
Theorem C1_rsi_on_zero_average_loss fsqrt self d w df close i g l :
  data self = Some d -> heap w !! d = Some df -> columns df !! "Close" = Some close ->
  rsi_gain close !! i = Some (Fin g) ->
  rsi_loss close !! i = Some (Fin l) ->
  (l == 0)%Q ->
  raised (calculate_technical_indicators fsqrt self w) = None /\
  raised (calculate_indicators fsqrt d w) = None /\
  ((0 < g)%Q ->
   cell (world_of (calculate_technical_indicators fsqrt self w)) d "RSI" i
   = Some (Fin 100) /\
   result_cell (calculate_indicators fsqrt d w) "RSI" i = Some (Fin 100)) /\
  ((g == 0)%Q ->
   cell (world_of (calculate_technical_indicators fsqrt self w)) d "RSI" i
   = Some NaN /\
   result_cell (calculate_indicators fsqrt d w) "RSI" i = Some NaN).
Proof.
  intros Hd Hl Hc Hg Hloss Hzero.
  destruct (analyzer_rsi_cell fsqrt self d w df close i Hd Hl Hc) as [Hr1 Hc1].
  destruct (app_rsi_cell fsqrt d w df close i Hl Hc) as [Hr2 Hc2].
  rewrite Hc1, Hc2. change (rsi_app close) with (rsi_analyzer close).
  rewrite (rsi_analyzer_lookup close i _ _ Hg Hloss).
  repeat split; try done.
  all: try (by rewrite rsi_value_zero_loss).
  all: by rewrite rsi_value_zero_zero.
Qed.

(** Fifteen closes that rise by one each bar: at the last row the average
    loss is 0, the average gain is 1, and both computations give 100. *)
Lemma C1_rising_closes_give_100 :
  (data analyzer0 = Some 0 /\
   heap (world_with (prices (rising 15))) !! 0 = Some (prices (rising 15)) /\
   columns (prices (rising 15)) !! "Close" = Some (rising 15) /\
   rsi_gain (rising 15) !! 14 = Some (Fin 1) /\
   rsi_loss (rising 15) !! 14 = Some (Fin 0) /\
   (0 == 0)%Q /\ (0 < 1)%Q) /\
  cell (world_of (calculate_technical_indicators fsqrt_floor analyzer0
                    (world_with (prices (rising 15))))) 0 "RSI" 14
  = Some (Fin 100) /\
  result_cell (calculate_indicators fsqrt_floor 0 (world_with (prices (rising 15))))
    "RSI" 14
  = Some (Fin 100).
Proof.
  assert (data analyzer0 = Some 0) as H1 by reflexivity.
  assert (heap (world_with (prices (rising 15))) !! 0 = Some (prices (rising 15)))
    as H2 by apply lookup_singleton_eq.
  assert (columns (prices (rising 15)) !! "Close" = Some (rising 15))
    as H3 by (vm_compute; reflexivity).
  assert (rsi_gain (rising 15) !! 14 = Some (Fin 1)) as H4 by (vm_compute; reflexivity).
  assert (rsi_loss (rising 15) !! 14 = Some (Fin 0)) as H5 by (vm_compute; reflexivity).
  assert (0 == 0)%Q as H6 by reflexivity.
  assert (0 < 1)%Q as H7 by reflexivity.
  split; [ by repeat split | ].
  exact (proj1 (proj2 (proj2
           (C1_rsi_on_zero_average_loss fsqrt_floor analyzer0 0 _ _ _ 14 1 0
              H1 H2 H3 H4 H5 H6))) H7).
Defined.

(** C1 as the specification states it fails on a constant close: over
    fifteen closes of 100 the average loss of the last row is 0, so is the
    average gain, and the RSI of that row is NaN in both computations, not
    100. *)
Lemma C1_constant_close_gives_nan :
  rsi_loss (flat 15) !! 14 = Some (Fin 0) /\
  rsi_gain (flat 15) !! 14 = Some (Fin 0) /\
  raised (calculate_technical_indicators fsqrt_floor analyzer0
            (world_with (prices (flat 15)))) = None /\
  cell (world_of (calculate_technical_indicators fsqrt_floor analyzer0
                    (world_with (prices (flat 15))))) 0 "RSI" 14
  = Some NaN /\
  result_cell (calculate_indicators fsqrt_floor 0 (world_with (prices (flat 15))))
    "RSI" 14
  = Some NaN /\
  Some NaN <> Some (Fin 100).
Proof. repeat split; try (vm_compute; reflexivity). discriminate. Qed.

(** ** RSI over a window of finite closes *)

Lemma where_fmap (s : Series) (test : float64 -> bool) other :
  where_ s (test <$> s) other = (fun x => if test x then x else other) <$> s.
Proof.
  unfold where_. induction s as [ | x s IH ]; cbn; [ done | ]. by rewrite IH.
Qed.

Lemma rsi_gain_rows close :
  rsi_gain close = rolling_mean 14 (gain_of <$> diff close).
Proof. unfold rsi_gain, series_gt. by rewrite where_fmap. Qed.

Lemma rsi_loss_rows close :
  rsi_loss close = rolling_mean 14 (loss_of <$> diff close).
Proof.
  unfold rsi_loss, series_lt, series_neg. rewrite where_fmap.
  by rewrite <- list_fmap_compose.
Qed.

Lemma length_diff s : length (diff s) = length s.
Proof. unfold diff. apply length_imap. Qed.

Lemma rolling_mean_lookup w s i :
  w <= S i -> i < length s ->
  rolling_mean w s !! i = Some (fdiv (fsum (window w i s)) (of_nat w)).
Proof.
  intros Hw Hi. unfold rolling_mean. rewrite list_lookup_imap.
  destruct (lookup_lt_is_Some_2 s i Hi) as [x ->]. cbn.
  rewrite decide_False by lia. done.
Qed.

(** Every row of the window that ends at [i] is a row between
    [S i - w] and [i]. *)
Lemma window_Forall (P : float64 -> Prop) w s i :
  w <= S i ->
  (forall j x, S i - w <= j <= i -> s !! j = Some x -> P x) ->
  Forall P (window w i s).
Proof.
  intros Hw H. apply Forall_lookup. intros k x Hk. unfold window in Hk.
  apply lookup_take_Some in Hk as [Hk Hlt]. rewrite lookup_drop in Hk.
  apply (H (S i - w + k)); [ lia | done ].
Qed.

Lemma window_elem w s i j x :
  S i - w <= j <= i -> s !! j = Some x -> x ∈ window w i s.
Proof.
  intros Hj Hx. apply list_elem_of_lookup. exists (j - (S i - w)).
  unfold window. rewrite lookup_take_lt by lia. rewrite lookup_drop.
  by replace (S i - w + (j - (S i - w))) with j by lia.
Qed.

(** *** Sums of finite values *)

Lemma fin_zero q : (q == 0)%Q -> fin q = Fin 0.
Proof. intros H. unfold fin. by rewrite (Qred_complete _ _ H). Qed.

Lemma fsum_cons x l : fsum (x :: l) = fadd x (fsum l).
Proof. reflexivity. Qed.

Lemma fsum_zero l : Forall is_zero l -> fsum l = Fin 0.
Proof.
  induction 1 as [ | x l (q & -> & Hq) _ IH ]; [ done | ].
  rewrite fsum_cons, IH. cbn. apply fin_zero. rewrite Hq. reflexivity.
Qed.

Lemma fsum_nonneg l : Forall is_nonneg l -> is_nonneg (fsum l).
Proof.
  induction 1 as [ | x l (q & -> & Hq) _ (r & IH & Hr) ].
  - exists 0%Q. split; [ done | apply Qle_refl ].
  - rewrite fsum_cons, IH. cbn. exists (Qred (q + r)). split; [ done | ].
    rewrite Qred_correct. replace 0%Q with (0 + 0)%Q by done.
    by apply Qplus_le_compat.
Qed.

Lemma fsum_pos l x : Forall is_nonneg l -> x ∈ l -> is_pos x -> is_pos (fsum l).
Proof.
  intros Hall Hin (p & -> & Hp). induction Hall as [ | y l (q & -> & Hq) Hl IH ].
  - by apply elem_of_nil in Hin.
  - rewrite fsum_cons. destruct (fsum_nonneg l Hl) as (r & Hr & Hr0).
    apply elem_of_cons in Hin as [Heq | Hin].
    + injection Heq as <-. rewrite Hr. cbn. exists (Qred (p + r)).
      split; [ done | ]. rewrite Qred_correct.
      replace 0%Q with (0 + 0)%Q by done. by apply Qplus_lt_le_compat.
    + destruct (IH Hin) as (r' & Hr' & Hr'0). rewrite Hr'. cbn.
      exists (Qred (q + r')). split; [ done | ]. rewrite Qred_correct.
      apply (Qlt_le_trans _ (0 + r')).
      * by rewrite Qplus_0_l.
      * apply Qplus_le_compat; [ done | apply Qle_refl ].
Qed.

Lemma mean14_zero x : x = Fin 0 -> fdiv x (of_nat 14) = Fin 0.
Proof. by intros ->. Qed.

Lemma mean14_pos x : is_pos x -> is_pos (fdiv x (of_nat 14)).
Proof.
  intros (q & -> & Hq). change (of_nat 14) with (Fin 14). cbn.
  exists (Qred (q / 14)). split; [ done | ]. rewrite Qred_correct.
  apply Qlt_shift_div_l; [ done | ]. by rewrite Qmult_0_l.
Qed.

(** *** Closes that are all finite

    The condition of C1 in terms of the closes themselves: when no close
    of the window is below the close before it, the average loss of the
    row is 0. *)

Lemma diff_finite_lookup (qs : list Q) j x :
  diff (Fin <$> qs) !! j = Some x ->
  x = NaN \/
  exists k a b, j = S k /\ qs !! k = Some a /\ qs !! S k = Some b /\ x = fin (b - a).
Proof.
  unfold diff. rewrite list_lookup_imap, list_lookup_fmap.
  destruct (qs !! j) as [b | ] eqn:Eb; cbn; [ | done ].
  destruct j as [ | k ]; intros [= <-]; [ by left | ].
  rewrite list_lookup_fmap.
  destruct (qs !! k) as [a | ] eqn:Ea; cbn; [ | by left ].
  right. by exists k, a, b.
Qed.

Lemma diff_finite_lookup_S (qs : list Q) k a b :
  qs !! k = Some a -> qs !! S k = Some b ->
  diff (Fin <$> qs) !! S k = Some (fin (b - a)).
Proof.
  intros Ha Hb. unfold diff. apply list_lookup_imap_Some. exists (Fin b).
  split; [ by rewrite list_lookup_fmap, Hb | ].
  cbv beta iota. by rewrite list_lookup_fmap, Ha.
Qed.

Lemma gain_of_nan : gain_of NaN = Fin 0.
Proof. reflexivity. Qed.

Lemma loss_of_nan : loss_of NaN = Fin 0.
Proof. reflexivity. Qed.

Lemma gain_of_fin_nonneg d : is_nonneg (gain_of (fin d)).
Proof.
  unfold gain_of, fin, fgt. cbn. destruct (Qlt_b 0 (Qred d)) eqn:E.
  - apply Qlt_b_spec in E. exists (Qred d). split; [ done | by apply Qlt_le_weak ].
  - exists 0%Q. split; [ done | apply Qle_refl ].
Qed.

Lemma gain_of_fin_pos d : (0 < d)%Q -> is_pos (gain_of (fin d)).
Proof.
  intros Hd. unfold gain_of, fin, fgt. cbn.
  assert (0 < Qred d)%Q as Hr by (by rewrite Qred_correct).
  rewrite (proj2 (Qlt_b_spec 0 (Qred d)) Hr). by exists (Qred d).
Qed.

Lemma gain_of_fin_zero d : (d <= 0)%Q -> gain_of (fin d) = Fin 0.
Proof.
  intros Hd. unfold gain_of, fin, fgt. cbn.
  destruct (Qlt_b 0 (Qred d)) eqn:E; [ | done ].
  apply Qlt_b_spec in E. rewrite Qred_correct in E.
  by apply Qlt_not_le in E.
Qed.

Lemma loss_of_fin_zero d : (0 <= d)%Q -> loss_of (fin d) = Fin 0.
Proof.
  intros Hd. unfold loss_of, fin. cbn.
  destruct (Qlt_b (Qred d) 0) eqn:E; [ | done ].
  apply Qlt_b_spec in E. rewrite Qred_correct in E.
  by apply Qlt_not_le in E.
Qed.

Section FiniteWindow.

Variables (qs : list Q) (i : nat).
Hypothesis Hrow : 13 <= i < length qs.

Lemma rows_length (f : float64 -> float64) :
  i < length (f <$> diff (Fin <$> qs)).
Proof. rewrite length_fmap, length_diff, length_fmap. lia. Qed.

Lemma no_fall_loss_zero :
  no_fall qs i -> rsi_loss (Fin <$> qs) !! i = Some (Fin 0).
Proof.
  intros Hnf. rewrite rsi_loss_rows, rolling_mean_lookup by (lia || apply rows_length).
  f_equal. apply mean14_zero, fsum_zero, window_Forall; [ lia | ].
  intros j x Hj Hx. rewrite list_lookup_fmap in Hx.
  destruct (diff (Fin <$> qs) !! j) as [dl | ] eqn:E; [ | done ].
  injection Hx as <-.
  apply diff_finite_lookup in E as [-> | (k & a & b & -> & Ha & Hb & ->)].
  - by exists 0%Q.
  - exists 0%Q. split; [ | done ]. apply loss_of_fin_zero.
    apply (Qplus_le_l _ _ a). ring_simplify. by apply (Hnf k).
Qed.

Lemma gains_nonneg :
  Forall is_nonneg (window 14 i (gain_of <$> diff (Fin <$> qs))).
Proof.
  apply window_Forall; [ lia | ].
  intros j x Hj Hx. rewrite list_lookup_fmap in Hx.
  destruct (diff (Fin <$> qs) !! j) as [dl | ] eqn:E; [ | done ].
  injection Hx as <-.
  apply diff_finite_lookup in E as [-> | (k & a & b & -> & Ha & Hb & ->)].
  - exists 0%Q. split; [ done | apply Qle_refl ].
  - apply gain_of_fin_nonneg.
Qed.

Lemma some_rise_gain_pos :
  some_rise qs i -> exists g, rsi_gain (Fin <$> qs) !! i = Some (Fin g) /\ (0 < g)%Q.
Proof.
  intros (k & a & b & Hk & Ha & Hb & Hlt).
  rewrite rsi_gain_rows, rolling_mean_lookup by (lia || apply rows_length).
  destruct (mean14_pos (fsum (window 14 i (gain_of <$> diff (Fin <$> qs)))))
    as (g & Hg & Hpos).
  - apply (fsum_pos _ (gain_of (fin (b - a)))); [ apply gains_nonneg | | ].
    + apply (window_elem _ _ _ (S k)); [ lia | ].
      by rewrite list_lookup_fmap, (diff_finite_lookup_S qs k a b).
    + apply gain_of_fin_pos. apply (Qplus_lt_l _ _ a). by ring_simplify.
  - exists g. by rewrite Hg.
Qed.

Lemma no_rise_gain_zero :
  no_rise qs i -> rsi_gain (Fin <$> qs) !! i = Some (Fin 0).
Proof.
  intros Hnr. rewrite rsi_gain_rows, rolling_mean_lookup by (lia || apply rows_length).
  f_equal. apply mean14_zero, fsum_zero, window_Forall; [ lia | ].
  intros j x Hj Hx. rewrite list_lookup_fmap in Hx.
  destruct (diff (Fin <$> qs) !! j) as [dl | ] eqn:E; [ | done ].
  injection Hx as <-.
  apply diff_finite_lookup in E as [-> | (k & a & b & -> & Ha & Hb & ->)].
  - by exists 0%Q.
  - exists 0%Q. split; [ | done ]. apply gain_of_fin_zero.
    apply (Qplus_le_l _ _ a). ring_simplify. by apply (Hnr k).
Qed.

(** Closes that never fall and rise at least once over the window: 100. *)
Lemma rsi_of_rising_window :
  no_fall qs i -> some_rise qs i -> rsi_analyzer (Fin <$> qs) !! i = Some (Fin 100).
Proof.
  intros Hnf Hsr. destruct (some_rise_gain_pos Hsr) as (g & Hg & Hpos).
  rewrite (rsi_analyzer_lookup _ i _ _ Hg (no_fall_loss_zero Hnf)).
  by rewrite rsi_value_zero_loss.
Qed.

(** Closes that neither fall nor rise over the window: NaN. *)
Lemma rsi_of_flat_window :
  no_fall qs i -> no_rise qs i -> rsi_analyzer (Fin <$> qs) !! i = Some NaN.
Proof.
  intros Hnf Hnr.
  rewrite (rsi_analyzer_lookup _ i _ _ (no_rise_gain_zero Hnr) (no_fall_loss_zero Hnf)).
  by rewrite rsi_value_zero_zero.
Qed.

End FiniteWindow.

(** ** Short histories *)

(** C2. Twelve rising closes leave SMA_30 undefined on the last row, and
    [analyze_trend] answers with the bullish label; five leave SMA_10
    undefined too, and it answers sideways.  app.py shows its data-shortage
    badge on both tables. *)
Theorem C2_analyze_trend_labels_undefined_averages :
  let after n :=
    world_of (calculate_technical_indicators fsqrt_floor analyzer0
                (world_with (prices (rising n)))) in
  let page n :=
    single_symbol_mode fsqrt_floor (always (prices (rising n))) "AAPL" "1mo"
      empty_world in
  (frame_column (after 12) 0 "SMA_10" ≫= last) = Some (Fin (213 # 2)) /\
  (frame_column (after 12) 0 "SMA_30" ≫= last) = Some NaN /\
  trend <$> value_of (analyze_trend analyzer0 (after 12)) = Some Bullish /\
  (frame_column (after 5) 0 "SMA_10" ≫= last) = Some NaN /\
  (frame_column (after 5) 0 "SMA_30" ≫= last) = Some NaN /\
  trend <$> value_of (analyze_trend analyzer0 (after 5)) = Some Sideways /\
  app_trend_text <$> value_of (page 12) = Some InsufficientData /\
  app_trend_text <$> value_of (page 5) = Some InsufficientData.
Proof. repeat split; vm_compute; reflexivity. Qed.

(** C7. On five closes the RSI of the last row is undefined.
    [analyze_trend] reports the neutral signal; app.py puts 0 in the place
    of the undefined value and labels it oversold. *)
Theorem C7_app_labels_undefined_rsi_oversold :
  let page :=
    single_symbol_mode fsqrt_floor (always (prices (rising 5))) "AAPL" "1mo"
      empty_world in
  let after :=
    world_of (calculate_technical_indicators fsqrt_floor analyzer0
                (world_with (prices (rising 5)))) in
  (s ← value_of page; frame_column (world_of page) (app_table s) "RSI" ≫= last)
  = Some NaN /\
  app_rsi <$> value_of page = Some (Fin 0) /\
  app_rsi_text <$> value_of page = Some Oversold /\
  (frame_column after 0 "RSI" ≫= last) = Some NaN /\
  rsi_signal <$> value_of (analyze_trend analyzer0 after) = Some Neutral.
Proof. repeat split; vm_compute; reflexivity. Qed.

(** ** The RSI computations side by side *)

(** C10. The RSI of [calculate_technical_indicators], of the RSI panel of
    [compare_stocks], of [calculate_indicators] and of the RSI panel of
    [create_comparison_chart] are the same value on every row, and that
    value is the one the trailing-14 means of gain and loss give. *)
Theorem C10_four_rsi_computations_agree (close : Series) (i : nat) :
  rsi_compare_chart close !! i = rsi_analyzer close !! i /\
  rsi_app close !! i = rsi_analyzer close !! i /\
  rsi_app_chart close !! i = rsi_analyzer close !! i /\
  rsi_analyzer close !! i
  = (g ← rsi_gain close !! i; l ← rsi_loss close !! i; Some (rsi_value g l)).
Proof.
  repeat split.
  unfold rsi_analyzer, scalar_sub, scalar_div, scalar_add, series_div.
  rewrite !list_lookup_fmap, lookup_zip_with.
  fold (rsi_gain close). fold (rsi_loss close).
  destruct (rsi_gain close !! i) as [g | ]; [ | reflexivity ].
  destruct (rsi_loss close !! i); reflexivity.
Qed.

(** The summary table of [compare_stocks] computes the same once more. *)
Lemma rsi_compare_summary_agrees (close : Series) :
  rsi_compare_summary close = rsi_analyzer close.
Proof. reflexivity. Qed.

(** ** Running the computation again *)

(** Each derived column is set by the computation, whatever the frame
    held under that name before. *)
Lemma app_columns_derived fsqrt close cols c :
  c ∈ app_indicator_names ->
  app_columns fsqrt close cols !! c = app_columns fsqrt close ∅ !! c /\
  is_Some (app_columns fsqrt close cols !! c).
Proof.
  intros Hc. unfold app_indicator_names in Hc.
  repeat (apply elem_of_cons in Hc as [-> | Hc]);
    try (by apply elem_of_nil in Hc);
    unfold app_columns, bollinger_columns, macd_columns, rsi_columns,
      volatility_columns, sma_columns;
    rewrite ?lookup_insert_ne by done; rewrite !lookup_insert_eq; eauto.
Qed.

Lemma analyzer_columns_derived fsqrt close cols c :
  c ∈ analyzer_indicator_names ->
  analyzer_columns fsqrt close cols !! c = analyzer_columns fsqrt close ∅ !! c /\
  is_Some (analyzer_columns fsqrt close cols !! c).
Proof.
  intros Hc. unfold analyzer_indicator_names, app_indicator_names in Hc. cbn in Hc.
  repeat (apply elem_of_cons in Hc as [-> | Hc]);
    try (by apply elem_of_nil in Hc);
    unfold analyzer_columns, daily_return_columns, bollinger_columns, macd_columns,
      rsi_columns, volatility_columns, sma_columns;
    rewrite ?lookup_insert_ne by done; rewrite !lookup_insert_eq; eauto.
Qed.

Lemma app_columns_close fsqrt close cols :
  app_columns fsqrt close cols !! "Close" = cols !! "Close".
Proof.
  apply app_columns_preserves. unfold price_names. rewrite !elem_of_cons. tauto.
Qed.

Lemma analyzer_columns_close fsqrt close cols :
  analyzer_columns fsqrt close cols !! "Close" = cols !! "Close".
Proof.
  apply analyzer_columns_preserves. unfold price_names. rewrite !elem_of_cons. tauto.
Qed.

(** The columns of the table [calculate_indicators] returns. *)
Lemma calculate_indicators_columns fsqrt d w df close c :
  heap w !! d = Some df -> columns df !! "Close" = Some close ->
  result_column (calculate_indicators fsqrt d w) c
  = app_columns fsqrt close (columns df) !! c.
Proof.
  intros Hl Hc. rewrite (calculate_indicators_run fsqrt d w df close Hl Hc).
  unfold result_column, frame_column. cbn. by rewrite lookup_insert_eq.
Qed.

(** The columns of [self.data] after [calculate_technical_indicators]. *)
Lemma calculate_technical_indicators_columns fsqrt self d w df close c :
  data self = Some d -> heap w !! d = Some df -> columns df !! "Close" = Some close ->
  frame_column (world_of (calculate_technical_indicators fsqrt self w)) d c
  = analyzer_columns fsqrt close (columns df) !! c.
Proof.
  intros Hd Hl Hc.
  rewrite (calculate_technical_indicators_run fsqrt self d close Hd w df Hl Hc).
  unfold frame_column, with_frame. cbn. by rewrite lookup_insert_eq.
Qed.

(** C9. Feeding the table of a first computation to the computation again
    gives the same derived columns, row for row: each derived column is a
    function of the Close series alone (the columns computed from Close
    on an otherwise empty frame).  For [calculate_indicators] the second
    run is on the table the first returned; for
    [calculate_technical_indicators] it is a second call on [self.data]. *)
Theorem C9_rerun_reproduces_indicators fsqrt self d w df close c c' :
  data self = Some d -> heap w !! d = Some df -> columns df !! "Close" = Some close ->
  c ∈ app_indicator_names ->
  c' ∈ analyzer_indicator_names ->
  (exists t1 w1,
     calculate_indicators fsqrt d w = Ok t1 w1 /\
     frame_column w1 t1 "Close" = Some close /\
     is_Some (frame_column w1 t1 c) /\
     frame_column w1 t1 c = app_columns fsqrt close ∅ !! c /\
     result_column (calculate_indicators fsqrt t1 w1) c = frame_column w1 t1 c) /\
  (exists w1 w2,
     calculate_technical_indicators fsqrt self w = Ok tt w1 /\
     calculate_technical_indicators fsqrt self w1 = Ok tt w2 /\
     frame_column w1 d "Close" = Some close /\
     is_Some (frame_column w1 d c') /\
     frame_column w1 d c' = analyzer_columns fsqrt close ∅ !! c' /\
     frame_column w2 d c' = frame_column w1 d c').
Proof.
  intros Hd Hl Hc Hin Hin'. split.
  - pose proof (calculate_indicators_run fsqrt d w df close Hl Hc) as Hrun.
    cbv zeta in Hrun.
    set (t1 := fresh (dom (heap w))) in *.
    set (tbl := mkDF (index df) (app_columns fsqrt close (columns df))) in *.
    set (w1 := mkWorld (<[t1 := tbl]> (heap w)) (out w)) in *.
    assert (heap w1 !! t1 = Some tbl) as Hl1 by apply lookup_insert_eq.
    assert (columns tbl !! "Close" = Some close) as Hc1.
    { unfold tbl. cbn. by rewrite app_columns_close. }
    assert (forall k, frame_column w1 t1 k = columns tbl !! k) as Hcol.
    { intros k. unfold frame_column. by rewrite Hl1. }
    destruct (app_columns_derived fsqrt close (columns df) c Hin) as [Heq Hsome].
    exists t1, w1. rewrite !Hcol.
    repeat split; try done.
    rewrite (calculate_indicators_columns fsqrt t1 w1 tbl close c Hl1 Hc1).
    unfold tbl. cbn. rewrite Heq.
    apply (app_columns_derived fsqrt close _ c Hin).
  - pose proof (calculate_technical_indicators_run fsqrt self d close Hd) as Hrun.
    set (tbl := mkDF (index df) (analyzer_columns fsqrt close (columns df))).
    set (w1 := with_frame d w tbl).
    assert (heap w1 !! d = Some tbl) as Hl1 by apply lookup_insert_eq.
    assert (columns tbl !! "Close" = Some close) as Hc1.
    { unfold tbl. cbn. by rewrite analyzer_columns_close. }
    assert (forall k, frame_column w1 d k = columns tbl !! k) as Hcol.
    { intros k. unfold frame_column. by rewrite Hl1. }
    destruct (analyzer_columns_derived fsqrt close (columns df) c' Hin') as [Heq Hsome].
    exists w1, (with_frame d w1 (mkDF (index tbl) (analyzer_columns fsqrt close (columns tbl)))).
    rewrite !Hcol.
    split; [ by apply Hrun | ]. split; [ by apply Hrun | ].
    repeat split; try done.
    unfold frame_column, with_frame. cbn. rewrite lookup_insert_eq. cbn.
    rewrite Heq. apply (analyzer_columns_derived fsqrt close _ c' Hin').
Qed.

(** Rerunning on twenty closes that rise by one: the RSI column, and the
    daily return of the analyzer, come out defined and the same again. *)
Lemma C9_rerun_on_rising_closes :
  (data analyzer0 = Some 0 /\
   heap (world_with (prices (rising 20))) !! 0 = Some (prices (rising 20)) /\
   columns (prices (rising 20)) !! "Close" = Some (rising 20) /\
   "RSI" ∈ app_indicator_names /\ "Daily_Return" ∈ analyzer_indicator_names) /\
  (exists t1 w1,
     calculate_indicators fsqrt_floor 0 (world_with (prices (rising 20)))
     = Ok t1 w1 /\
     result_column (calculate_indicators fsqrt_floor t1 w1) "RSI"
     = frame_column w1 t1 "RSI") /\
  (exists w1 w2,
     calculate_technical_indicators fsqrt_floor analyzer0
       (world_with (prices (rising 20))) = Ok tt w1 /\
     calculate_technical_indicators fsqrt_floor analyzer0 w1 = Ok tt w2 /\
     frame_column w2 0 "Daily_Return" = frame_column w1 0 "Daily_Return").
Proof.
  assert (data analyzer0 = Some 0) as H1 by reflexivity.
  assert (heap (world_with (prices (rising 20))) !! 0 = Some (prices (rising 20)))
    as H2 by apply lookup_singleton_eq.
  assert (columns (prices (rising 20)) !! "Close" = Some (rising 20))
    as H3 by (vm_compute; reflexivity).
  assert ("RSI" ∈ app_indicator_names) as H4.
  { unfold app_indicator_names. rewrite !elem_of_cons. tauto. }
  assert ("Daily_Return" ∈ analyzer_indicator_names) as H5.
  { unfold analyzer_indicator_names, app_indicator_names. cbn.
    rewrite !elem_of_cons. tauto. }
  split; [ by repeat split | ].
  destruct (C9_rerun_reproduces_indicators fsqrt_floor analyzer0 0 _ _ _
              "RSI" "Daily_Return" H1 H2 H3 H4 H5)
    as [(t1 & w1 & Ha & _ & _ & _ & Hb) (w1' & w2 & Hc & Hd & _ & _ & _ & He)].
  split.
  - exists t1, w1. by split.
  - exists w1', w2. by repeat split.
Defined.

(** ** The source table after the computation *)

Lemma app_columns_dom fsqrt close cols :
  dom (app_columns fsqrt close cols) = dom cols ∪ list_to_set app_indicator_names.
Proof.
  unfold app_columns, bollinger_columns, macd_columns, rsi_columns,
    volatility_columns, sma_columns.
  rewrite !dom_insert_L. cbn. apply set_eq. intros x.
  rewrite !elem_of_union, !elem_of_singleton, elem_of_empty. tauto.
Qed.

Lemma analyzer_columns_dom fsqrt close cols :
  dom (analyzer_columns fsqrt close cols)
  = dom cols ∪ list_to_set analyzer_indicator_names.
Proof.
  unfold analyzer_columns, daily_return_columns, bollinger_columns, macd_columns,
    rsi_columns, volatility_columns, sma_columns.
  rewrite !dom_insert_L. cbn. apply set_eq. intros x.
  rewrite !elem_of_union, !elem_of_singleton, elem_of_empty. tauto.
Qed.

(** C3, as the code has it.  [calculate_indicators] of app.py leaves every
    object it was given as it was and returns a table at a location that
    was not in use: the index and the price columns of the source, and the
    eleven derived columns.  [calculate_technical_indicators] returns
    nothing and creates no table: it adds the twelve derived columns to
    [self.data] itself, whose index and price columns keep their values. *)
Theorem C3_source_table_after_computation fsqrt self d w df close :
  data self = Some d -> heap w !! d = Some df -> columns df !! "Close" = Some close ->
  (exists t w1 tbl,
     calculate_indicators fsqrt d w = Ok t w1 /\
     (t ∉ dom (heap w)) /\
     (forall l, l ∈ dom (heap w) -> heap w1 !! l = heap w !! l) /\
     heap w1 !! d = Some df /\
     out w1 = out w /\
     heap w1 !! t = Some tbl /\
     index tbl = index df /\
     (forall k, k ∈ price_names -> columns tbl !! k = columns df !! k) /\
     dom (columns tbl) = dom (columns df) ∪ list_to_set app_indicator_names) /\
  (exists w1 tbl,
     calculate_technical_indicators fsqrt self w = Ok tt w1 /\
     dom (heap w1) = dom (heap w) /\
     (forall l, l <> d -> heap w1 !! l = heap w !! l) /\
     out w1 = out w /\
     heap w1 !! d = Some tbl /\
     index tbl = index df /\
     (forall k, k ∈ price_names -> columns tbl !! k = columns df !! k) /\
     dom (columns tbl) = dom (columns df) ∪ list_to_set analyzer_indicator_names).
Proof.
  intros Hd Hl Hc. split.
  - pose proof (calculate_indicators_run fsqrt d w df close Hl Hc) as Hrun.
    cbv zeta in Hrun.
    pose proof (is_fresh (dom (heap w))) as Hfresh.
    set (t := fresh (dom (heap w))) in *.
    assert (t <> d) as Hne.
    { intros ->. apply Hfresh, elem_of_dom. by exists df. }
    eexists t, _, _. split; [ exact Hrun | ]. cbn.
    split; [ exact Hfresh | ].
    split. { intros l Hin. apply lookup_insert_ne. by intros ->. }
    split. { by rewrite lookup_insert_ne. }
    split; [ done | ].
    split; [ apply lookup_insert_eq | ]. cbn.
    split; [ done | ].
    split; [ intros k Hk; by apply app_columns_preserves | ].
    apply app_columns_dom.
  - pose proof (calculate_technical_indicators_run fsqrt self d close Hd w df Hl Hc)
      as Hrun.
    eexists _, _. split; [ exact Hrun | ]. unfold with_frame. cbn.
    split.
    { rewrite dom_insert_L. apply subseteq_union_1_L, singleton_subseteq_l.
      apply elem_of_dom. by exists df. }
    split. { intros l Hne. by apply lookup_insert_ne. }
    split; [ done | ].
    split; [ apply lookup_insert_eq | ]. cbn.
    split; [ done | ].
    split; [ intros k Hk; by apply analyzer_columns_preserves | ].
    apply analyzer_columns_dom.
Qed.

(** Both computations on three closes. *)
Lemma C3_on_three_closes :
  (data analyzer0 = Some 0 /\
   heap (world_with (prices (rising 3))) !! 0 = Some (prices (rising 3)) /\
   columns (prices (rising 3)) !! "Close" = Some (rising 3)) /\
  (exists t w1,
     calculate_indicators fsqrt_floor 0 (world_with (prices (rising 3))) = Ok t w1 /\
     heap w1 !! 0 = Some (prices (rising 3))) /\
  (exists w1 tbl,
     calculate_technical_indicators fsqrt_floor analyzer0
       (world_with (prices (rising 3))) = Ok tt w1 /\
     heap w1 !! 0 = Some tbl /\
     dom (columns tbl)
     = dom (columns (prices (rising 3))) ∪ list_to_set analyzer_indicator_names).
Proof.
  assert (data analyzer0 = Some 0) as H1 by reflexivity.
  assert (heap (world_with (prices (rising 3))) !! 0 = Some (prices (rising 3)))
    as H2 by apply lookup_singleton_eq.
  assert (columns (prices (rising 3)) !! "Close" = Some (rising 3))
    as H3 by (vm_compute; reflexivity).
  split; [ by repeat split | ].
  destruct (C3_source_table_after_computation fsqrt_floor analyzer0 0 _ _ _
              H1 H2 H3)
    as [(t & w1 & tbl & Ha & _ & _ & Hb & _)
        (w1' & tbl' & Hc & _ & _ & _ & Hd & _ & _ & He)].
  split.
  - exists t, w1. by split.
  - exists w1', tbl'. by repeat split.
Defined.

(** C3 as the specification states it fails for
    [calculate_technical_indicators]:
    on a three-bar table the call returns no table, the heap still holds
    the one object, and that object, the source, now has an SMA_10
    column it did not have. *)
Lemma C3_analyzer_adds_columns_to_source :
  frame_column (world_with (prices (rising 3))) 0 "SMA_10" = None /\
  value_of (calculate_technical_indicators fsqrt_floor analyzer0
              (world_with (prices (rising 3)))) = Some tt /\
  dom (heap (world_of (calculate_technical_indicators fsqrt_floor analyzer0
                         (world_with (prices (rising 3))))))
  = {[ 0 ]} /\
  frame_column
    (world_of (calculate_technical_indicators fsqrt_floor analyzer0
                 (world_with (prices (rising 3))))) 0 "SMA_10"
  = Some [NaN; NaN; NaN].
Proof. repeat split; vm_compute; reflexivity. Qed.

(** ** The empty price series *)

Lemma analyzer_columns_of_no_bars fsqrt cols c :
  c ∈ analyzer_indicator_names -> analyzer_columns fsqrt [] cols !! c = Some [].
Proof.
  intros Hc. rewrite (proj1 (analyzer_columns_derived fsqrt [] cols c Hc)).
  unfold analyzer_indicator_names, app_indicator_names in Hc. cbn in Hc.
  repeat (apply elem_of_cons in Hc as [-> | Hc]);
    try (by apply elem_of_nil in Hc); vm_compute; reflexivity.
Qed.

Lemma app_columns_of_no_bars fsqrt cols c :
  c ∈ app_indicator_names -> app_columns fsqrt [] cols !! c = Some [].
Proof.
  intros Hc. rewrite (proj1 (app_columns_derived fsqrt [] cols c Hc)).
  unfold app_indicator_names in Hc.
  repeat (apply elem_of_cons in Hc as [-> | Hc]);
    try (by apply elem_of_nil in Hc); vm_compute; reflexivity.
Qed.

Lemma df_empty_no_rows df : index df = [] -> df_empty df = true.
Proof. intros H. unfold df_empty. by rewrite bool_decide_eq_true_2. Qed.

(** [analyze_trend] on a table without rows stops at the first
    [.iloc[-1]]. *)
Lemma analyze_trend_no_rows self d w df :
  data self = Some d -> heap w !! d = Some df -> columns df !! "Close" = Some [] ->
  analyze_trend self w = Raise IndexError w.
Proof.
  intros Hd Hl Hc. unfold analyze_trend.
  erewrite bind_ok; [ | unfold self_data; rewrite Hd; reflexivity ].
  erewrite bind_ok by (by eapply getitem_ok).
  by erewrite bind_raise.
Qed.

(** [run] stops after a fetch that brought no rows. *)
Lemma run_on_empty_fetch fsqrt yf_history self w df :
  yf_history (ticker self) (period self) = Some df -> df_empty df = true ->
  exists w', run fsqrt yf_history self w = Ok false w' /\ out w' = out w.
Proof.
  intros Hy He. unfold run, fetch_data, try_except, history. rewrite Hy.
  unfold mbind, M_bind, bind, alloc, deref. cbn. rewrite lookup_insert_eq, He. cbn.
  eauto.
Qed.

(** The single-symbol page stops after a fetch that brought no rows. *)
Lemma single_symbol_mode_on_empty_fetch fsqrt yf_history t p w df :
  yf_history t p = Some df -> df_empty df = true ->
  exists w',
    single_symbol_mode fsqrt yf_history t p w = Raise StopException w' /\
    out w' = out w ++ [NoData t].
Proof.
  intros Hy He. unfold single_symbol_mode, fetch_stock_data, try_except, history.
  rewrite Hy.
  unfold mbind, M_bind, bind, alloc, deref. cbn. rewrite lookup_insert_eq, He. cbn.
  eauto.
Qed.

(** C4, as the code has it.  On a price series without bars both indicator
    computations return, and every derived column is empty.  Asking
    [analyze_trend] for the snapshot of such a table raises IndexError; the
    callers do not ask: [run] returns False right after a fetch that
    brought no rows, and app.py's single-symbol page reports that there is
    no data and stops. *)
Theorem C4_empty_price_series fsqrt yf_history self d w df c c' :
  data self = Some d -> heap w !! d = Some df ->
  index df = [] -> columns df !! "Close" = Some [] ->
  c ∈ analyzer_indicator_names -> c' ∈ app_indicator_names ->
  (exists w1,
     calculate_technical_indicators fsqrt self w = Ok tt w1 /\
     frame_column w1 d c = Some [] /\
     index <$> heap w1 !! d = Some [] /\
     analyze_trend self w1 = Raise IndexError w1) /\
  (exists t1 w1,
     calculate_indicators fsqrt d w = Ok t1 w1 /\
     frame_column w1 t1 c' = Some [] /\
     index <$> heap w1 !! t1 = Some []) /\
  (forall a w0,
     yf_history (ticker a) (period a) = Some df ->
     exists w', run fsqrt yf_history a w0 = Ok false w' /\ out w' = out w0) /\
  (forall t p w0,
     yf_history t p = Some df ->
     exists w',
       single_symbol_mode fsqrt yf_history t p w0 = Raise StopException w' /\
       out w' = out w0 ++ [NoData t]).
Proof.
  intros Hd Hl Hix Hc Hin Hin'.
  pose proof (df_empty_no_rows df Hix) as He.
  split; [ | split; [ | split ] ].
  - pose proof (calculate_technical_indicators_run fsqrt self d [] Hd w df Hl Hc)
      as Hrun.
    eexists. split; [ exact Hrun | ].
    unfold frame_column, with_frame. cbn. rewrite lookup_insert_eq. cbn.
    split; [ by apply analyzer_columns_of_no_bars | ].
    split; [ by rewrite Hix | ].
    eapply analyze_trend_no_rows; [ exact Hd | apply lookup_insert_eq | ].
    cbn. by rewrite analyzer_columns_close.
  - pose proof (calculate_indicators_run fsqrt d w df [] Hl Hc) as Hrun.
    cbv zeta in Hrun. eexists _, _. split; [ exact Hrun | ].
    unfold frame_column. cbn. rewrite lookup_insert_eq. cbn.
    split; [ by apply app_columns_of_no_bars | by rewrite Hix ].
  - intros a w0 Hy. by eapply run_on_empty_fetch.
  - intros t p w0 Hy. by eapply single_symbol_mode_on_empty_fetch.
Qed.

(** The price table without bars, computed, asked, and fetched. *)
Lemma C4_on_no_bars :
  (data analyzer0 = Some 0 /\
   heap (world_with (prices [])) !! 0 = Some (prices []) /\
   index (prices []) = [] /\ columns (prices []) !! "Close" = Some [] /\
   "RSI" ∈ analyzer_indicator_names /\ "RSI" ∈ app_indicator_names /\
   always (prices []) (ticker analyzer0) (period analyzer0) = Some (prices [])) /\
  (exists w1,
     calculate_technical_indicators fsqrt_floor analyzer0 (world_with (prices []))
     = Ok tt w1 /\
     frame_column w1 0 "RSI" = Some [] /\
     analyze_trend analyzer0 w1 = Raise IndexError w1) /\
  (exists w',
     run fsqrt_floor (always (prices [])) analyzer0 empty_world = Ok false w') /\
  (exists w',
     single_symbol_mode fsqrt_floor (always (prices [])) "AAPL" "1mo" empty_world
     = Raise StopException w').
Proof.
  assert (data analyzer0 = Some 0) as H1 by reflexivity.
  assert (heap (world_with (prices [])) !! 0 = Some (prices []))
    as H2 by apply lookup_singleton_eq.
  assert (index (prices []) = []) as H3 by reflexivity.
  assert (columns (prices []) !! "Close" = Some []) as H4 by (vm_compute; reflexivity).
  assert ("RSI" ∈ app_indicator_names) as H5.
  { unfold app_indicator_names. rewrite !elem_of_cons. tauto. }
  assert ("RSI" ∈ analyzer_indicator_names) as H6.
  { unfold analyzer_indicator_names. apply elem_of_app. by left. }
  assert (always (prices []) (ticker analyzer0) (period analyzer0) = Some (prices []))
    as H7 by reflexivity.
  split; [ by repeat split | ].
  destruct (C4_empty_price_series fsqrt_floor (always (prices [])) analyzer0 0
              _ _ "RSI" "RSI" H1 H2 H3 H4 H6 H5)
    as [(w1 & Ha & Hb & _ & Hc) [_ [Hrun Hpage]]].
  split; [ exists w1; by repeat split | ].
  split.
  - destruct (Hrun analyzer0 empty_world H7) as (w' & Hr & _). by exists w'.
  - destruct (Hpage "AAPL" "1mo" empty_world H7) as (w' & Hr & _). by exists w'.
Defined.

(** C4 as the specification states it fails in its second half: the
    snapshot asked of the table computed from a price series without bars
    is not an insufficient-data result, it is the exception IndexError. *)
Lemma C4_snapshot_of_no_bars_raises :
  value_of (calculate_technical_indicators fsqrt_floor analyzer0
              (world_with (prices []))) = Some tt /\
  frame_column
    (world_of (calculate_technical_indicators fsqrt_floor analyzer0
                 (world_with (prices [])))) 0 "Close" = Some [] /\
  value_of (analyze_trend analyzer0
              (world_of (calculate_technical_indicators fsqrt_floor analyzer0
                           (world_with (prices []))))) = None /\
  raised (analyze_trend analyzer0
            (world_of (calculate_technical_indicators fsqrt_floor analyzer0
                         (world_with (prices []))))) = Some IndexError.
Proof. repeat split; vm_compute; reflexivity. Qed.


(** ** The comparison set and its guard *)














